(** * snowplow-task: per-customer dbt project generator

    A shallow embedding of [generate_snowplow_dbt_projects.py] and of its
    twin [generate_snowplow_dbt_projects_dbt_init.py] (module [DbtInit];
    its [slugify], [build_snowplow_vars], [dump_yaml] and [write_file] are
    the same code, its [handle_project_dir] differs in the wording of the
    prompt) together with the properties of its specification.

    Conventions of the embedding:
    - a Python [str] is a [string]; a character is a code point in
      U+0000..U+00FF, classified as CPython classifies it ([str.lower],
      [str.isspace], and the [re] classes [\w] and [\s] on [str] patterns);
    - a parsed JSON document is a [json] value, a [dict] is a [gmap]: the
      order of its keys, which ruamel.yaml writes out, is not kept;
    - a function that can raise returns [exn + A];
    - code that touches the file system, the console or the clock threads a
      [world] through; the file system of the model has no limit on names
      or space and no permissions;
    - ruamel.yaml's serializer is not part of the repository and enters as
      a parameter: nothing here is a statement about the text it writes. *)

From Stdlib Require Import ZArith Ascii String List Bool Lia Floats.
From stdpp Require Import base option gmap strings list fin_maps.
From Stdlib Require Import DecimalString.

Open Scope string_scope.
Open Scope list_scope.

(** ** Characters *)

Module Char.

Definition code (c : ascii) : N := N_of_ascii c.

Definition between (lo hi : N) (c : ascii) : bool :=
  ((lo <=? code c) && (code c <=? hi))%N.

(** [str.isupper] restricted to one character: the code points that
    [str.lower] moves. *)
Definition is_upper (c : ascii) : bool :=
  between 65 90 c || between 192 214 c || between 216 222 c.

(** One character of [str.lower()]. *)
Definition lower (c : ascii) : ascii :=
  if is_upper c then ascii_of_N (code c + 32) else c.

(** [str.isspace], which is also what [\s] and [str.strip()] use. *)
Definition is_space (c : ascii) : bool :=
  between 9 13 c || between 28 32 c || (code c =? 133)%N || (code c =? 160)%N.

(** [str.isalnum] on one character. *)
Definition is_alnum (c : ascii) : bool :=
  between 48 57 c || between 65 90 c || between 97 122 c
  || (code c =? 170)%N || between 178 179 c || (code c =? 181)%N
  || between 185 186 c || between 188 190 c
  || between 192 214 c || between 216 246 c || between 248 255 c.

Definition is_underscore (c : ascii) : bool := (code c =? 95)%N.

Definition is_dash (c : ascii) : bool := (code c =? 45)%N.

(** The [re] class [\w]. *)
Definition is_word (c : ascii) : bool := is_alnum c || is_underscore c.

Definition dash : ascii := "-"%char.

End Char.

(** ** Regular-expression substitutions used by [slugify] *)

Module Re.

(** [re.sub(r"[^\w\s-]", "", s)]: what the negated class keeps. *)
Definition keeps (c : ascii) : bool :=
  Char.is_word c || Char.is_space c || Char.is_dash c.

Definition sub_not_word_space_dash (s : list ascii) : list ascii :=
  List.filter keeps s.

(** [re.sub(p+, r, s)] for a one-character class [p]: a left-to-right scan
    that writes [r] where a run of [p] starts and skips the rest of the
    run.  [in_run] says that the previous character was in the class. *)
Fixpoint scan (p : ascii -> bool) (r : ascii) (in_run : bool)
    (s : list ascii) : list ascii :=
  match s with
  | [] => []
  | c :: t =>
      if p c then
        if in_run then scan p r true t else r :: scan p r true t
      else c :: scan p r false t
  end.

Definition sub_plus (p : ascii -> bool) (r : ascii) (s : list ascii) :=
  scan p r false s.

End Re.

(** [str.strip()] with no argument. *)
Fixpoint lstrip (s : list ascii) : list ascii :=
  match s with
  | [] => []
  | c :: t => if Char.is_space c then lstrip t else s
  end.

Definition rstrip (s : list ascii) : list ascii := rev (lstrip (rev s)).

Definition strip (s : list ascii) : list ascii := rstrip (lstrip s).

(** ** [slugify] *)

Definition slug_chars (name : list ascii) : list ascii :=
  let s := List.map Char.lower name in
  let s := Re.sub_not_word_space_dash s in
  let s := Re.sub_plus Char.is_space Char.dash (strip s) in
  let s := Re.sub_plus Char.is_dash Char.dash s in
  s.

Definition slugify (name : string) : string :=
  string_of_list_ascii (slug_chars (list_ascii_of_string name)).

Definition str_lower (s : string) : string :=
  string_of_list_ascii (List.map Char.lower (list_ascii_of_string s)).

Definition str_strip (s : string) : string :=
  string_of_list_ascii (strip (list_ascii_of_string s)).

(** ** JSON documents, as [json.loads] returns them *)

Set Warnings "-register-all".

Inductive json : Type :=
  | JNull
  | JBool (b : bool)
  | JInt (n : Z)
  | JFloat (f : float)
  | JStr (s : string)
  | JList (l : list json)
  | JDict (d : gmap string json).

(** Python's truth value of a JSON value, as [if v:] tests it. *)
Definition truthy (v : json) : bool :=
  match v with
  | JNull => false
  | JBool b => b
  | JInt n => negb (n =? 0)%Z
  | JFloat f => negb (PrimFloat.eqb f PrimFloat.zero)
  | JStr s => negb (String.eqb s "")
  | JList l => match l with [] => false | _ => true end
  | JDict d => negb (Nat.eqb (size d) 0)
  end.

(** [d.get(k, default)] and [d.get(k)]. *)
Definition dict_get (d : gmap string json) (k : string) (default : json) : json :=
  match d !! k with
  | Some v => v
  | None => default
  end.

Definition dict_get_none (d : gmap string json) (k : string) : json :=
  dict_get d k JNull.

(** ** Exceptions *)

Inductive exn : Type :=
  | AttributeError
  | EOFError
  | FileExistsError
  | FileNotFoundError
  | IsADirectoryError
  | NotADirectoryError
  | OSError
  | ShutilError.

Definition ebind {A B : Type} (m : exn + A) (k : A -> exn + B) : exn + B :=
  match m with
  | inl e => inl e
  | inr a => k a
  end.

Notation "'let?' x ':=' m 'in' k" := (ebind m (fun x => k))
  (at level 10, x name, m at level 100, k at level 200).

(** [v.lower()]: only [str] has the method. *)
Definition lower_method (v : json) : exn + string :=
  match v with
  | JStr s => inr (str_lower s)
  | _ => inl AttributeError
  end.

(** [slugify(v)] on whatever value the record holds: line 41 calls
    [name.lower()] first. *)
Definition slugify_value (v : json) : exn + string :=
  match v with
  | JStr s => inr (slugify s)
  | _ => inl AttributeError
  end.

(** ** [build_snowplow_vars] *)

Definition k_user_set_variables := "user_set_variables".
Definition k_historical_data_since := "historical_data_since".
Definition k_mobile_tracking := "mobile_tracking".
Definition k_web_tracking := "web_tracking".
Definition k_app_ids := "app_ids".
Definition k_brand_name := "brand_name".

Definition v_start_date := "snowplow__start_date".
Definition v_enable_mobile_data := "snowplow__enable_mobile_data".
Definition v_enable_web_data := "snowplow__enable_web_data".
Definition v_app_ids := "snowplow__app_ids".
Definition v_brand_name := "snowplow__brand_name".

(** [vars_block.update(user_vars)] when [user_vars] is a [dict]. *)
Definition update_from (user_vars : json) (vars_block : gmap string json)
    : gmap string json :=
  match user_vars with
  | JDict u => u ∪ vars_block
  | _ => vars_block
  end.

Definition set_if_truthy (k : string) (v : json) (vars_block : gmap string json)
    : gmap string json :=
  if truthy v then <[k := v]> vars_block else vars_block.

Definition build_snowplow_vars (customer_json : gmap string json)
    : exn + gmap string json :=
  let vars_block : gmap string json := ∅ in
  let user_vars := dict_get customer_json k_user_set_variables (JDict ∅) in
  let vars_block := update_from user_vars vars_block in
  let start_date := dict_get_none customer_json k_historical_data_since in
  let vars_block := set_if_truthy v_start_date start_date vars_block in
  let? mobile := lower_method (dict_get customer_json k_mobile_tracking (JStr "")) in
  let vars_block :=
    <[v_enable_mobile_data := JBool (String.eqb mobile "yes")]> vars_block in
  let? web := lower_method (dict_get customer_json k_web_tracking (JStr "")) in
  let vars_block :=
    <[v_enable_web_data := JBool (String.eqb web "yes")]> vars_block in
  let app_ids := dict_get_none customer_json k_app_ids in
  let vars_block := set_if_truthy v_app_ids app_ids vars_block in
  let vars_block :=
    <[v_brand_name := dict_get_none customer_json k_brand_name]> vars_block in
  inr vars_block.

(** ** The configuration tree handed to ruamel.yaml *)

Inductive ynode : Type :=
  | YStr (s : string)                     (* a plain [str] *)
  | YInt (n : Z)                          (* a plain [int] *)
  | YDqs (s : string)                     (* [DoubleQuotedScalarString] *)
  | YFlowSeq (items : list ynode)         (* [make_inline_seq] *)
  | YSeq (items : list ynode)             (* a plain [list] *)
  | YMap (items : list (string * ynode))  (* [CommentedMap], in insertion order *)
  | YVars (vars_block : gmap string json) (* the [CommentedMap] of [build_snowplow_vars] *).

(** [m[k]] on a [CommentedMap]. *)
Fixpoint cm_get (k : string) (m : list (string * ynode)) : option ynode :=
  match m with
  | [] => None
  | (k', v) :: t => if String.eqb k k' then Some v else cm_get k t
  end.

Definition make_inline_seq (items : list ynode) : ynode := YFlowSeq items.

Definition DEFAULT_PACKAGE_GIT := "https://github.com/snowplow/snowplow-unified-dbt.git".
Definition DEFAULT_PACKAGE_REF := "main".

Definition packages_obj (package_git package_ref : string) : ynode :=
  YMap [("packages",
         YSeq [YMap [("git", YStr package_git); ("revision", YStr package_ref)]])].

Definition dbt_project_obj (project_name : string)
    (snowplow_vars : gmap string json) : list (string * ynode) :=
  [ ("name", YDqs project_name);
    ("version", YStr "1.0.0");
    ("config-version", YInt 2);
    ("require-dbt-version", make_inline_seq [YDqs ">=1.6.0"; YDqs "<2.0.0"]);
    ("profile", YStr "your_profile_name_here");
    ("dispatch",
      YSeq [YMap [("macro_namespace", YStr "dbt");
                  ("search_order",
                    make_inline_seq [YDqs "snowplow_utils"; YDqs "dbt"])]]);
    ("model-paths", make_inline_seq [YStr "models"]);
    ("analysis-paths", make_inline_seq [YStr "analysis"]);
    ("test-paths", make_inline_seq [YStr "tests"]);
    ("macro-paths", make_inline_seq [YStr "macros"]);
    ("docs-paths", make_inline_seq [YStr "docs"]);
    ("asset-paths", make_inline_seq [YStr "assets"]);
    ("target-path", YStr "target");
    ("clean-targets",
      make_inline_seq [YStr "target"; YStr "dbt_modules"; YStr "dbt_packages"]);
    ("vars", YMap [("snowplow_unified", YVars snowplow_vars)]);
    ("models",
      YMap [("snowplow_unified",
        YMap [("base",
                YMap [("manifest", YMap [("+schema", YStr "my_manifest_schema")]);
                      ("scratch", YMap [("+schema", YStr "my_scratch_schema")])]);
              ("sessions",
                YMap [("+schema", YStr "my_derived_schema");
                      ("scratch", YMap [("+schema", YStr "my_scratch_schema")])])])])
  ].

(** The values [generate_project_for_customer] derives from the record
    before it touches the disk (lines 112-114 and 119). *)
Definition brand (customer_json : gmap string json) : json :=
  dict_get customer_json k_brand_name (JStr "unnamed_brand").

Definition slug (customer_json : gmap string json) : exn + string :=
  slugify_value (brand customer_json).

Definition project_name (slug : string) : string :=
  "snowplow_unified_for_" +:+ slug.

(** The tree that reaches [dump_yaml] at line 161, as a function of the
    record: [slugify] runs first, [build_snowplow_vars] second. *)
Definition build_config (customer_json : gmap string json)
    : exn + list (string * ynode) :=
  let? slug := slug customer_json in
  let? snowplow_vars := build_snowplow_vars customer_json in
  inr (dbt_project_obj (project_name slug) snowplow_vars).

(** The [vars] subtree of a configuration tree. *)
Definition config_vars (tree : list (string * ynode)) : option (gmap string json) :=
  match cm_get "vars" tree with
  | Some (YMap m) =>
      match cm_get "snowplow_unified" m with
      | Some (YVars v) => Some v
      | _ => None
      end
  | _ => None
  end.

(** ** The world: file system, console and clock *)

Inductive entry : Type :=
  | File (content : string)
  | Dir.

(** A path is the list of its components below the working directory. *)
Definition fsmap : Type := list string -> option entry.

Record world : Type := mkWorld {
  files : fsmap;
  stdin : list string;      (* the lines still to be read by [input()] *)
  stdout : list string;     (* what [print] and prompts wrote, oldest first *)
  now_stamp : string;       (* [datetime.now().strftime("%Y%m%d_%H%M%S")] *)
  today_iso : string        (* [date.today().isoformat()] *)
}.

Definition set_files (f : fsmap) (w : world) : world :=
  mkWorld f (stdin w) (stdout w) (now_stamp w) (today_iso w).

Definition set_stdin (l : list string) (w : world) : world :=
  mkWorld (files w) l (stdout w) (now_stamp w) (today_iso w).

Definition put_stdout (line : string) (w : world) : world :=
  mkWorld (files w) (stdin w) (stdout w ++ [line]) (now_stamp w) (today_iso w).

(** *** Paths *)

Definition path_parent (p : list string) : list string := removelast p.

Definition path_name (p : list string) : string := List.last p "".

Definition path_str (p : list string) : string := String.concat "/" p.

(** [Some rest] when [p = pre ++ rest]. *)
Fixpoint strip_prefix (pre p : list string) : option (list string) :=
  match pre, p with
  | [], _ => Some p
  | a :: pre', b :: p' => if String.eqb a b then strip_prefix pre' p' else None
  | _ :: _, [] => None
  end.

Definition under (pre p : list string) : bool :=
  match strip_prefix pre p with
  | Some _ => true
  | None => false
  end.

(** *** File-system primitives *)

(** The working directory itself always exists. *)
Definition fs_at (fs : fsmap) (p : list string) : option entry :=
  match p with
  | [] => Some Dir
  | _ => fs p
  end.

Definition fs_set (p : list string) (e : entry) (fs : fsmap) : fsmap :=
  fun q => if bool_decide (q = p) then Some e else fs q.

(** [os.rename(src, dst)]: the subtree at [src] is found at [dst]. *)
Definition fs_rename (src dst : list string) (fs : fsmap) : fsmap :=
  fun q =>
    match strip_prefix dst q with
    | Some rest => fs (src ++ rest)
    | None => if under src q then None else fs q
    end.

Definition fs_remove_tree (p : list string) (fs : fsmap) : fsmap :=
  fun q => if under p q then None else fs q.

(** [shutil.move(src, dst)] on one file system: into [dst] when [dst] is a
    directory, onto [dst] otherwise, by [os.rename].  The copy that the
    library falls back on when the rename fails is left out: the failure of
    the rename is the result.  [handle_project_dir] moves a directory onto a
    sibling name, where the parent of the destination is the parent of the
    source. *)
Definition shutil_move (src dst : list string) (fs : fsmap) : exn + fsmap :=
  match fs_at fs src with
  | None => inl FileNotFoundError
  | Some src_entry =>
      match fs_at fs dst with
      | Some Dir =>
          let real_dst := dst ++ [path_name src] in
          if under src real_dst then inl ShutilError
          else match fs_at fs real_dst with
               | Some _ => inl ShutilError
               | None => inr (fs_rename src real_dst fs)
               end
      | Some (File _) =>
          match src_entry with
          | File _ => inr (fs_rename src dst fs)
          | Dir => inl FileExistsError
          end
      | None =>
          if under src dst then inl ShutilError
          else match fs_at fs (path_parent dst) with
               | Some Dir => inr (fs_rename src dst fs)
               | Some (File _) => inl NotADirectoryError
               | None => inl FileNotFoundError
               end
      end
  end.

Definition shutil_rmtree (p : list string) (fs : fsmap) : exn + fsmap :=
  match fs_at fs p with
  | Some Dir => inr (fs_remove_tree p fs)
  | Some (File _) => inl NotADirectoryError
  | None => inl FileNotFoundError
  end.

(** [Path.mkdir(parents=True, exist_ok=True)]: walk down from the working
    directory, creating what is missing. [done] is the prefix already
    known to be a directory. *)
Fixpoint mkdir_walk (done rest : list string) (fs : fsmap) : exn + fsmap :=
  match rest with
  | [] => inr fs
  | c :: rest' =>
      let here := done ++ [c] in
      match fs here with
      | Some Dir => mkdir_walk here rest' fs
      | Some (File _) =>
          match rest' with
          | [] => inl FileExistsError
          | _ => inl NotADirectoryError
          end
      | None => mkdir_walk here rest' (fs_set here Dir fs)
      end
  end.

Definition mkdir_parents (p : list string) (fs : fsmap) : exn + fsmap :=
  mkdir_walk [] p fs.

(** [Path.mkdir(exist_ok=True)]. *)
Definition mkdir_exist_ok (p : list string) (fs : fsmap) : exn + fsmap :=
  match fs_at fs p with
  | Some Dir => inr fs
  | Some (File _) => inl FileExistsError
  | None =>
      match fs_at fs (path_parent p) with
      | Some Dir => inr (fs_set p Dir fs)
      | Some (File _) => inl NotADirectoryError
      | None => inl FileNotFoundError
      end
  end.

(** Opening [p] with mode ["w"] and writing [content]: the file is created
    or truncated. *)
Definition write_text (p : list string) (content : string) (fs : fsmap)
    : exn + fsmap :=
  match fs_at fs (path_parent p) with
  | Some Dir =>
      match fs_at fs p with
      | Some Dir => inl IsADirectoryError
      | _ => inr (fs_set p (File content) fs)
      end
  | Some (File _) => inl NotADirectoryError
  | None => inl FileNotFoundError
  end.

(** *** Programs that run in the world *)

Definition IO (A : Type) : Type := world -> (exn + A) * world.

Definition ret {A : Type} (a : A) : IO A := fun w => (inr a, w).

Definition raise {A : Type} (e : exn) : IO A := fun w => (inl e, w).

Definition bind {A B : Type} (m : IO A) (k : A -> IO B) : IO B :=
  fun w =>
    match m w with
    | (inl e, w') => (inl e, w')
    | (inr a, w') => k a w'
    end.

Notation "x <- m ;; k" := (bind m (fun x => k))
  (at level 100, m at next level, right associativity).
Notation "m ;; k" := (bind m (fun _ => k))
  (at level 100, right associativity).

Definition print (line : string) : IO unit :=
  fun w => (inr tt, put_stdout line w).

(** [input(prompt)]: the prompt goes to the console, one line comes back. *)
Definition input (prompt : string) : IO string :=
  fun w =>
    let w := put_stdout prompt w in
    match stdin w with
    | [] => (inl EOFError, w)
    | line :: rest => (inr line, set_stdin rest w)
    end.

Definition path_exists (p : list string) : IO bool :=
  fun w => (inr (match fs_at (files w) p with Some _ => true | None => false end), w).

(** A file-system call: the new file system on success, the old one and
    the exception otherwise. *)
Definition fs_call (op : fsmap -> exn + fsmap) : IO unit :=
  fun w =>
    match op (files w) with
    | inl e => (inl e, w)
    | inr fs => (inr tt, set_files fs w)
    end.

Definition strftime_now : IO string := fun w => (inr (now_stamp w), w).

Definition date_today : IO string := fun w => (inr (today_iso w), w).

Definition lift {A : Type} (r : exn + A) : IO A :=
  fun w => (r, w).

(** ** [handle_project_dir] *)

Definition renamed_dir (project_dir : list string) (now : string) : list string :=
  path_parent project_dir ++ [path_name project_dir +:+ "_old_" +:+ now].

Definition handle_project_dir (project_dir : list string) : IO unit :=
  present <- path_exists project_dir ;;
  if present : bool then
    now <- strftime_now ;;
    line <- input ("Project directory '" +:+ path_str project_dir
                   +:+ "' already exists. Override? [y/N]: ") ;;
    let response := str_lower (str_strip line) in
    if negb (String.eqb response "y") then
      let new_name := renamed_dir project_dir now in
      fs_call (shutil_move project_dir new_name) ;;
      print ("Existing project renamed to '" +:+ path_str new_name +:+ "'")
    else
      fs_call (shutil_rmtree project_dir) ;;
      print ("Existing project '" +:+ path_str project_dir
             +:+ "' removed for override.")
  else ret tt.

(** ** The emitter and the generated files *)

(** The settings of the module-level [yaml = YAML()] object (lines 33-36);
    nothing changes them afterwards. *)
Record YAML : Type := mkYAML {
  indent_mapping : nat;
  indent_sequence : nat;
  indent_offset : nat;
  default_flow_style : bool;
  preserve_quotes : bool
}.

Definition yaml : YAML := mkYAML 2 4 2 false true.

Definition nl : string := String (ascii_of_nat 10) "".

Definition profiles_example : string :=
  "# Minimal example profile. Replace values with your warehouse config.
your_profile_name_here:
  target: dev
  outputs:
    dev:
      type: <your_warehouse>  # e.g., bigquery, snowflake, redshift, databricks
      threads: 1
      # other warehouse-specific connection properties here
".

Definition readme (project_name now brand : string) : string :=
  "# " +:+ project_name +:+ nl +:+ nl +:+ "Generated on " +:+ now
  +:+ " from brand: " +:+ brand +:+ nl.

Definition write_file (path : list string) (content : string) : IO unit :=
  fs_call (mkdir_parents (path_parent path)) ;;
  fs_call (write_text path content) ;;
  print ("wrote: " +:+ path_str path).

Section Emitter.

(** ruamel.yaml's serializer: the text [YAML.dump] writes for an object
    under given settings. *)
Variable yaml_dump : YAML -> ynode -> string.

Definition dump_yaml (obj : ynode) (path : list string) : IO unit :=
  fs_call (write_text path (yaml_dump yaml obj)) ;;
  print ("wrote: " +:+ path_str path).

Definition generate_project_for_customer (customer_json : gmap string json)
    (out_root : list string) (package_git package_ref : string)
    : IO (list string) :=
  match brand customer_json with
  | JStr brand =>
      let slug := slugify brand in
      let project_dir := out_root ++ ["dbt_" +:+ slug] in
      handle_project_dir project_dir ;;
      fs_call (mkdir_parents project_dir) ;;
      let project_name := project_name slug in
      now <- date_today ;;
      dump_yaml (packages_obj package_git package_ref)
                (project_dir ++ ["packages.yml"]) ;;
      snowplow_vars <- lift (build_snowplow_vars customer_json) ;;
      dump_yaml (YMap (dbt_project_obj project_name snowplow_vars))
                (project_dir ++ ["dbt_project.yml"]) ;;
      write_file (project_dir ++ ["profiles.example.yml"]) profiles_example ;;
      write_file (project_dir ++ ["README.md"]) (readme project_name now brand) ;;
      fs_call (mkdir_exist_ok (project_dir ++ ["models"])) ;;
      print ("Project for '" +:+ brand +:+ "' generated at: "
             +:+ path_str project_dir) ;;
      ret project_dir
  | _ => raise AttributeError
  end.

End Emitter.

(** ** The script with [dbt init]: [generate_snowplow_dbt_projects_dbt_init.py] *)

Module DbtInit.

(** [handle_project_dir] of this script: the prompt is worded differently. *)
Definition handle_project_dir (project_dir : list string) : IO unit :=
  present <- path_exists project_dir ;;
  if present : bool then
    now <- strftime_now ;;
    line <- input ("Project directory '" +:+ path_str project_dir
                   +:+ "' exists. Override? [y/N]: ") ;;
    let response := str_lower (str_strip line) in
    if negb (String.eqb response "y") then
      let new_name := renamed_dir project_dir now in
      fs_call (shutil_move project_dir new_name) ;;
      print ("Existing project renamed to '" +:+ path_str new_name +:+ "'")
    else
      fs_call (shutil_rmtree project_dir) ;;
      print ("Existing project '" +:+ path_str project_dir
             +:+ "' removed for override.")
  else ret tt.

(** The profile example of this script, with the indentation of the source
    inside the text. *)
Definition profiles_example : string :=
  "# Minimal example profile. Replace values with your warehouse config.
        your_profile_name_here:
        target: dev
        outputs:
            dev:
            type: <your_warehouse>  # e.g., bigquery, snowflake, redshift, databricks
            threads: 1
            # other warehouse-specific connection properties here
        ".

(** [str(n)] of an [int]. *)
Definition str_of_int (n : Z) : string := NilZero.string_of_int (Z.to_int n).

(** The adapters [run_dbt_init] offers, and the one it installs for the
    number entered: [adapters[choice - 1]], with Python's indexing from the
    end for a negative index; [None] stands for [IndexError]. *)
Definition adapters : list string :=
  ["snowflake"; "bigquery"; "redshift"; "postgres"; "databricks"].

Definition list_item {A : Type} (l : list A) (i : Z) : option A :=
  if (0 <=? i)%Z then nth_error l (Z.to_nat i)
  else if (- Z.of_nat (length l) <=? i)%Z
       then nth_error l (Z.to_nat (Z.of_nat (length l) + i))
       else None.

Definition chosen_adapter (choice : Z) : option string :=
  list_item adapters (choice - 1).

Definition dbt_init_prompt : string :=
  "Do you want to use `dbt init` for this project? [y/N]: ".

Section Collaborators.

(** ruamel.yaml's serializer, as before. *)
Variable yaml_dump : YAML -> ynode -> string.

(** [str()] of the values whose text Python computes from a float or from
    the elements of a container. *)
Variable py_repr : json -> string.

(** [run_dbt_init]: the run of [pip] and of [dbt init] for a project
    directory and a project name, and the directory it returns. *)
Variable run_dbt_init : list string -> string -> IO (list string).

(** What an f-string writes for a value. *)
Definition format_value (v : json) : string :=
  match v with
  | JStr s => s
  | JNull => "None"
  | JBool true => "True"
  | JBool false => "False"
  | JInt n => str_of_int n
  | _ => py_repr v
  end.

Definition create_basic_files (project_dir : list string) (project_name : string)
    (customer_json : gmap string json) (package_git package_ref : string)
    : IO unit :=
  now <- date_today ;;
  snowplow_vars <- lift (build_snowplow_vars customer_json) ;;
  dump_yaml yaml_dump (packages_obj package_git package_ref)
            (project_dir ++ ["packages.yml"]) ;;
  dump_yaml yaml_dump (YMap (dbt_project_obj project_name snowplow_vars))
            (project_dir ++ ["dbt_project.yml"]) ;;
  write_file (project_dir ++ ["profiles.example.yml"]) profiles_example ;;
  write_file (project_dir ++ ["README.md"])
             (readme project_name now
                (format_value (dict_get_none customer_json k_brand_name))) ;;
  fs_call (mkdir_exist_ok (project_dir ++ ["models"])).

Definition generate_project_for_customer (customer_json : gmap string json)
    (out_root : list string) (package_git package_ref : string)
    : IO (list string) :=
  match brand customer_json with
  | JStr brand =>
      let slug := slugify brand in
      let project_dir := out_root ++ ["dbt_init_" +:+ slug] in
      handle_project_dir project_dir ;;
      fs_call (mkdir_parents project_dir) ;;
      let project_name := project_name slug in
      line <- input dbt_init_prompt ;;
      let use_dbt_init := String.eqb (str_lower (str_strip line)) "y" in
      project_dir <- (if use_dbt_init then run_dbt_init project_dir project_name
                      else ret project_dir) ;;
      create_basic_files project_dir project_name customer_json
                         package_git package_ref ;;
      print ("Project for '" +:+ brand +:+ "' generated at: "
             +:+ path_str project_dir) ;;
      ret project_dir
  | _ => raise AttributeError
  end.

End Collaborators.

End DbtInit.

(** ** [load_json_file] and [main] *)

(** How a run of the script ends when it does not return: [sys.exit], a
    JSON document that does not parse, or an exception nothing catches. *)
Inductive failure : Type :=
  | SystemExit (code : Z)
  | JSONDecodeError
  | Uncaught (e : exn).

(** The arguments after [parser.parse_args()].  A command line that does
    not parse makes [argparse] end the process with status 2 before this
    point; that is not part of the model. *)
Record args : Type := mkArgs {
  arg_input : option string;
  arg_input_dir : option string;
  arg_out : string;
  arg_package_git : string;
  arg_package_ref : string
}.

(** [if s:] on an optional argument: given and not empty. *)
Definition given (o : option string) : option string :=
  match o with
  | Some s => if String.eqb s "" then None else Some s
  | None => None
  end.

Section Main.

(** [Path(s)]. *)
Variable to_path : string -> list string.

(** [sorted(Path(d).glob("*.json"))] on a file system. *)
Variable glob_json : fsmap -> list string -> list (list string).

(** [json.loads]; [None] stands for [JSONDecodeError]. *)
Variable json_loads : string -> option json.

(** [generate_project_for_customer] of the script at hand. *)
Variable generate :
  gmap string json -> list string -> string -> string -> IO (list string).

(** The result, and the line written to [stderr] if any. *)
Definition load_json_file (path : list string) (w : world)
    : (failure + json) * list string :=
  match fs_at (files w) path with
  | None =>
      (inl (SystemExit 1),
       ["ERROR: Input file '" +:+ path_str path +:+ "' does not exist."])
  | Some Dir => (inl (Uncaught IsADirectoryError), [])
  | Some (File text) =>
      match json_loads text with
      | Some v => (inr v, [])
      | None => (inl JSONDecodeError, [])
      end
  end.

(** The loop of [main] over the inputs: the outcome, the world, and what
    went to [stderr]. *)
Fixpoint process_inputs (inputs : list (list string)) (out_root : list string)
    (package_git package_ref : string) (w : world)
    : (failure + unit) * world * list string :=
  match inputs with
  | [] => (inr tt, w, [])
  | ip :: rest =>
      let w := put_stdout ("Processing " +:+ path_str ip +:+ "...") w in
      match load_json_file ip w with
      | (inl f, err) => (inl f, w, err)
      | (inr (JDict customer_json), err) =>
          match generate customer_json out_root package_git package_ref w with
          | (inl e, w') => (inl (Uncaught e), w', err)
          | (inr _, w') =>
              let '(res, w'', err') :=
                process_inputs rest out_root package_git package_ref w' in
              (res, w'', err ++ err')
          end
      | (inr _, err) => (inl (Uncaught AttributeError), w, err)
      end
  end.

Definition inputs_of (a : args) (w : world) : list (list string) :=
  match given (arg_input a) with
  | Some s => [to_path s]
  | None => []
  end
  ++ match given (arg_input_dir a) with
     | Some d => glob_json (files w) (to_path d)
     | None => []
     end.

Definition main (a : args) (w : world) : (failure + unit) * world * list string :=
  let out_root := to_path (arg_out a) in
  let inputs := inputs_of a w in
  match inputs with
  | [] => (inl (SystemExit 2), w, ["No input files provided."])
  | _ => process_inputs inputs out_root (arg_package_git a) (arg_package_ref a) w
  end.

End Main.

(** ** Properties a slug is said to have *)

Definition chars (s : string) : list ascii := list_ascii_of_string s.

Definition all_chars (p : ascii -> bool) (s : string) : bool :=
  forallb p (chars s).

Definition is_lowercase (s : string) : bool :=
  all_chars (fun c => negb (Char.is_upper c)) s.

Definition alnum_or_dash (c : ascii) : bool :=
  Char.is_alnum c || Char.is_dash c.

Definition word_or_dash (c : ascii) : bool :=
  Char.is_alnum c || Char.is_underscore c || Char.is_dash c.

Definition starts_with_dash (l : list ascii) : bool :=
  match l with
  | c :: _ => Char.is_dash c
  | [] => false
  end.

Definition no_leading_dash (s : string) : bool := negb (starts_with_dash (chars s)).

Definition no_trailing_dash (s : string) : bool :=
  negb (starts_with_dash (rev (chars s))).

Fixpoint no_dash_run_chars (l : list ascii) : bool :=
  match l with
  | [] => true
  | c :: t => negb (Char.is_dash c && starts_with_dash t) && no_dash_run_chars t
  end.

Definition no_dash_run (s : string) : bool := no_dash_run_chars (chars s).

Definition has_no_dash (s : string) : bool :=
  all_chars (fun c => negb (Char.is_dash c)) s.

(** The first character of [l] that is a letter, a digit, an underscore or
    a dash: the first one [slugify] neither removes nor trims. *)
Fixpoint first_slug_char (l : list ascii) : option ascii :=
  match l with
  | [] => None
  | c :: t => if Char.is_word c || Char.is_dash c then Some c else first_slug_char t
  end.

(** That character, counted from the left and from the right, is a dash. *)
Definition leading_is_dash (s : string) : bool :=
  match first_slug_char (chars s) with
  | Some c => Char.is_dash c
  | None => false
  end.

Definition trailing_is_dash (s : string) : bool :=
  match first_slug_char (rev (chars s)) with
  | Some c => Char.is_dash c
  | None => false
  end.

(** The slug invariant as the specification words it. *)
Definition slug_invariant_as_specified (s : string) : bool :=
  is_lowercase s && all_chars alnum_or_dash s
  && no_leading_dash s && no_trailing_dash s && no_dash_run s.

(** What every character of a slug satisfies. *)
Definition slug_char (c : ascii) : bool :=
  word_or_dash c && negb (Char.is_upper c).

(** Whether the first character is in a class. *)
Definition hd_in (p : ascii -> bool) (l : list ascii) : bool :=
  match l with
  | c :: _ => p c
  | [] => false
  end.

(** ** Customer records that follow the data model *)

(** A field that is absent or holds a [str]. *)
Definition str_or_absent (o : option json) : bool :=
  match o with
  | None | Some (JStr _) => true
  | Some _ => false
  end.

(** Both tracking fields are absent or strings. *)
Definition tracking_typed (customer_json : gmap string json) : bool :=
  str_or_absent (customer_json !! k_mobile_tracking)
  && str_or_absent (customer_json !! k_web_tracking).

(** The lowercased text of a tracking field, a missing one being empty. *)
Definition tracking_text (o : option json) : string :=
  match o with
  | Some (JStr s) => str_lower s
  | _ => ""
  end.

(** Case-insensitive equality with the token ["yes"]. *)
Definition says_yes (o : option json) : bool := String.eqb (tracking_text o) "yes".

(** The name the specification gives the project: the fallback replaces an
    absent and an empty brand name alike ([brand_name or "unnamed_brand"]). *)
Definition name_as_specified (customer_json : gmap string json) : exn + string :=
  let b := dict_get_none customer_json k_brand_name in
  let? s := slugify_value (if truthy b then b else JStr "unnamed_brand") in
  inr ("snowplow_unified_for_" +:+ s).

(** The [name] entry of the tree built for a record. *)
Definition config_name (customer_json : gmap string json) : exn + option ynode :=
  let? tree := build_config customer_json in
  inr (cm_get "name" tree).

(** The variables [build_snowplow_vars] returns when it returns. *)
Definition vars_of (customer_json : gmap string json) : gmap string json :=
  <[v_brand_name := dict_get_none customer_json k_brand_name]>
    (set_if_truthy v_app_ids (dict_get_none customer_json k_app_ids)
      (<[v_enable_web_data := JBool (says_yes (customer_json !! k_web_tracking))]>
        (<[v_enable_mobile_data := JBool (says_yes (customer_json !! k_mobile_tracking))]>
          (set_if_truthy v_start_date
            (dict_get_none customer_json k_historical_data_since)
            (update_from (dict_get customer_json k_user_set_variables (JDict ∅)) ∅))))).

(** ** Conditions on the file system *)

(** Every directory on the way from [done] down to [done ++ rest] exists. *)
Fixpoint dir_chain (fs : fsmap) (done rest : list string) : bool :=
  match rest with
  | [] => true
  | c :: rest' =>
      match fs (done ++ [c]) with
      | Some Dir => dir_chain fs (done ++ [c]) rest'
      | _ => false
      end
  end.

(** [p] can be opened for writing: its parent is a directory and [p] is
    not one. *)
Definition writable (fs : fsmap) (p : list string) : bool :=
  match fs_at fs (path_parent p), fs_at fs p with
  | Some Dir, Some Dir => false
  | Some Dir, _ => true
  | _, _ => false
  end.

(** No file stands where a directory from [done] down to [done ++ rest]
    is needed. *)
Fixpoint no_file_chain (fs : fsmap) (done rest : list string) : bool :=
  match rest with
  | [] => true
  | c :: rest' =>
      match fs (done ++ [c]) with
      | Some (File _) => false
      | _ => no_file_chain fs (done ++ [c]) rest'
      end
  end.

Definition is_dir_entry (o : option entry) : bool :=
  match o with
  | Some Dir => true
  | _ => false
  end.

(** The limits of a Linux file system: a name of at most 255 bytes, a path
    of fewer than 4096, both counted in UTF-8, where a code point from
    U+0080 to U+00FF takes two bytes. *)
Definition utf8_length (s : string) : nat :=
  list_sum (List.map (fun c => if (Char.code c <? 128)%N then 1 else 2) (chars s)).

Definition name_fits (name : string) : bool := Nat.leb (utf8_length name) 255.

Definition path_fits (p : list string) : bool :=
  Nat.ltb (utf8_length (path_str p)) 4096.

(** ** Relating the world before and after a step *)

(** The date is the same and every entry but the one at [p0] is still
    there. *)
Definition preserved_off (p0 : list string) (w w' : world) : Prop :=
  today_iso w' = today_iso w
  /\ forall q e, q <> p0 -> files w q = Some e -> files w' q = Some e.

(** Whatever its outcome, [m] leaves every existing entry outside [dir] as
    it is. *)
Definition keeps_outside {A : Type} (dir : list string) (m : IO A) : Prop :=
  forall (w : world) (q : list string) (e : entry),
    under dir q = false -> files w q = Some e -> files (snd (m w)) q = Some e.

(** ** Sample worlds *)

(** A project generated earlier, at the top of the output root. *)
Definition old_project_fs : fsmap :=
  fun p =>
    if bool_decide (p = ["dbt_acme"]) then Some Dir
    else if bool_decide (p = ["dbt_acme"; "dbt_project.yml"])
         then Some (File "name: old")
         else None.


Definition empty_fs : fsmap := fun _ => None.

Definition fresh_world : world := mkWorld empty_fs [] [] "20240101_120000" "2024-01-01".

(** A stand-in serializer, for running the emitter on an example. *)
Definition sample_dump (cfg : YAML) (obj : ynode) : string :=
  match obj with
  | YStr s => s
  | _ => "..."
  end.

(** ** Sample records *)

(** The record of the specification's example: the user supplies
    [snowplow__brand_name = "X"], the brand name is ["Y"]. *)
Definition record_x_y : gmap string json :=
  <[k_user_set_variables := JDict {[ v_brand_name := JStr "X" ]}]>
    {[ k_brand_name := JStr "Y" ]}.

(** A record with an empty [historical_data_since] and a start date among
    the user's variables. *)
Definition record_user_start : gmap string json :=
  <[k_historical_data_since := JStr ""]>
    {[ k_user_set_variables := JDict {[ v_start_date := JStr "2020-02-02" ]} ]}.

(** The record of the specification's first scenario. *)
Definition record_acme : gmap string json :=
  <[k_brand_name := JStr "Acme Co."]>
    (<[k_web_tracking := JStr "Yes"]>
      {[ k_historical_data_since := JStr "2023-01-01" ]}).

(** ** Further properties of slugs and of directory names *)

(** Some character of [s] is a letter, a digit, an underscore or a dash. *)
Definition has_slug_char (s : string) : bool :=
  existsb (fun c => Char.is_word c || Char.is_dash c) (chars s).

(** [s] is lowercase, made of word characters and dashes, without a run of
    dashes. *)
Definition is_slug (s : string) : bool :=
  is_lowercase s && all_chars word_or_dash s && no_dash_run s.

(** [s] names one directory entry: it is not empty, not [.] or [..], and
    holds neither a slash nor a NUL. *)
Definition safe_component (s : string) : bool :=
  negb (String.eqb s "") && negb (String.eqb s ".") && negb (String.eqb s "..")
  && all_chars (fun c => negb (Ascii.eqb c "/") && negb (Ascii.eqb c "000")) s.

(** ** Keys of the record and of the variables subtree *)

(** The five names [build_snowplow_vars] may assign. *)
Definition derived_name (k : string) : bool :=
  String.eqb k v_start_date || String.eqb k v_enable_mobile_data
  || String.eqb k v_enable_web_data || String.eqb k v_app_ids
  || String.eqb k v_brand_name.

(** The six fields of a customer record that the builder reads. *)
Definition recognised_field (k : string) : bool :=
  String.eqb k k_user_set_variables || String.eqb k k_historical_data_since
  || String.eqb k k_mobile_tracking || String.eqb k k_web_tracking
  || String.eqb k k_app_ids || String.eqb k k_brand_name.

(** The user's variables, when the record has them as a mapping. *)
Definition user_vars_of (customer_json : gmap string json) : gmap string json :=
  match customer_json !! k_user_set_variables with
  | Some (JDict u) => u
  | _ => ∅
  end.

Definition is_dict (v : json) : bool :=
  match v with
  | JDict _ => true
  | _ => false
  end.

(** A record whose user variables carry a name of their own, and one whose
    [user_set_variables] is not a mapping. *)
Definition record_custom : gmap string json :=
  <[k_user_set_variables := JDict {[ "snowplow__session_timeout" := JInt 30 ]}]>
    {[ k_brand_name := JStr "Acme Co." ]}.

Definition record_malformed_vars : gmap string json :=
  <[k_user_set_variables := JList [JStr "a"]]> {[ k_brand_name := JStr "Acme Co." ]}.

(** The operator consents, with a capital and blanks around it. *)
Definition consent_world : world :=
  mkWorld old_project_fs [" Y "] [] "20240101_120000" "2024-01-01".

(** Nobody is there to answer. *)
Definition unattended_world : world :=
  mkWorld old_project_fs [] [] "20240101_120000" "2024-01-01".

(** The prompt of [handle_project_dir]. *)
Definition override_prompt (project_dir : list string) : string :=
  "Project directory '" +:+ path_str project_dir
  +:+ "' already exists. Override? [y/N]: ".

(** A record whose [mobile_tracking] is a JSON boolean. *)
Definition record_bool_tracking : gmap string json :=
  <[k_mobile_tracking := JBool true]> {[ k_brand_name := JStr "Acme Co." ]}.

(** Two projects side by side; the operator consents to overwrite one. *)
Definition two_projects_world : world :=
  set_files (fs_set ["dbt_other"] Dir old_project_fs) consent_world.

(** A record for the brand of [old_project_fs]. *)
Definition record_acme_short : gmap string json := {[ k_brand_name := JStr "Acme" ]}.

(** An empty project directory of the script with [dbt init]. *)
Definition init_dir_world : world :=
  mkWorld (fs_set ["dbt_init_unnamed_brand"] Dir empty_fs) [] []
          "20240101_120000" "2024-01-01".

(** An initializer that makes the scaffold [<project>/<name>] and returns it. *)
Definition sample_init (project_dir : list string) (name : string) : IO (list string) :=
  fs_call (mkdir_parents (project_dir ++ [name])) ;;
  ret (project_dir ++ [name]).

(** The operator declines, and accepts, [dbt init] in an empty output root. *)
Definition declining_world : world :=
  mkWorld empty_fs ["n"] [] "20240101_120000" "2024-01-01".


(** An initializer that fails. *)
Definition failing_init (project_dir : list string) (name : string) : IO (list string) :=
  raise OSError.

(** Stand-ins for [Path], [glob] and [json.loads], and a world with one
    input file holding an empty record. *)
Definition sample_to_path (s : string) : list string := [s].

Definition sample_glob (fs : fsmap) (dir : list string) : list (list string) := [].

Definition sample_loads (text : string) : option json :=
  if String.eqb text "{}" then Some (JDict ∅) else None.

Definition batch_world : world :=
  mkWorld (fs_set ["a.json"] (File "{}") empty_fs) [] []
          "20240101_120000" "2024-01-01".

Definition no_args : args := mkArgs None (Some "") "out" "git" "main".

(** * Properties *)

(** ** Worked inputs *)

Example slugify_acme : slugify "Acme Co." = "acme-co".
Proof. reflexivity. Qed.

Example slugify_spaces : slugify "  Big   Brand -- X  " = "big-brand-x".
Proof. reflexivity. Qed.

Example slugify_unnamed : slugify "unnamed_brand" = "unnamed_brand".
Proof. reflexivity. Qed.

Example slugify_edges : slugify "-a_b-" = "-a_b-".
Proof. reflexivity. Qed.

Example slugify_inner_dash :
  slugify "Coca-Cola" = "coca-cola"
  /\ leading_is_dash "Coca-Cola" = false /\ trailing_is_dash "Coca-Cola" = false
  /\ leading_is_dash " !-a" = true /\ slugify " !-a" = "-a".
Proof. repeat split. Qed.

(** ** Character facts, by running through the 256 code points *)

Ltac each_char c :=
  destruct c as [[] [] [] [] [] [] [] []]; vm_compute; try reflexivity; try discriminate.

Lemma lower_not_upper (c : ascii) : Char.is_upper (Char.lower c) = false.
Proof. each_char c. Qed.

Lemma lower_fixes (c : ascii) : Char.is_upper c = false -> Char.lower c = c.
Proof. unfold Char.lower. now intros ->. Qed.

Lemma dash_unique (c : ascii) : Char.is_dash c = true -> c = Char.dash.
Proof. each_char c. Qed.

Lemma word_not_space (c : ascii) : Char.is_word c = true -> Char.is_space c = false.
Proof. each_char c. Qed.

Lemma dash_not_space (c : ascii) : Char.is_dash c = true -> Char.is_space c = false.
Proof. each_char c. Qed.

Lemma word_not_dash (c : ascii) : Char.is_word c = true -> Char.is_dash c = false.
Proof. each_char c. Qed.

Lemma slug_char_dash : slug_char Char.dash = true.
Proof. reflexivity. Qed.

Lemma kept_lower_is_slug_char (c : ascii) :
  Re.keeps (Char.lower c) = true -> Char.is_space (Char.lower c) = false ->
  slug_char (Char.lower c) = true.
Proof.
  unfold slug_char, word_or_dash, Re.keeps, Char.is_word.
  intros Hk Hs. rewrite lower_not_upper, Hs in *.
  rewrite orb_false_r in Hk. now rewrite Hk.
Qed.

Lemma slug_char_keeps (c : ascii) : slug_char c = true -> Re.keeps c = true.
Proof.
  unfold slug_char, word_or_dash, Re.keeps, Char.is_word.
  intros [H _]%andb_prop.
  apply orb_prop in H as [H | H]; rewrite H; now rewrite ?orb_true_r.
Qed.

Lemma slug_char_not_space (c : ascii) : slug_char c = true -> Char.is_space c = false.
Proof.
  unfold slug_char, word_or_dash. intros [H _]%andb_prop.
  apply orb_prop in H as [H | H];
    [apply word_not_space; exact H | now apply dash_not_space].
Qed.

Lemma slug_char_lower (c : ascii) : slug_char c = true -> Char.lower c = c.
Proof.
  unfold slug_char. intros [_ H]%andb_prop.
  apply lower_fixes. now destruct (Char.is_upper c).
Qed.

(** ** The scans of [re.sub] *)

Section Scan.

Variable p : ascii -> bool.
Variable r : ascii.

(** Every character written is the replacement or an input character
    outside the class. *)
Lemma scan_Forall (Q : ascii -> Prop) (s : list ascii) :
  Q r -> Forall (fun c => p c = false -> Q c) s ->
  forall b, Forall Q (Re.scan p r b s).
Proof.
  intros Hr Hs. induction Hs as [| c t Hc _ IH]; intros b; simpl.
  - constructor.
  - destruct (p c) eqn:Hp.
    + destruct b; [apply IH | constructor; [exact Hr | apply IH]].
    + constructor; [now apply Hc | apply IH].
Qed.

(** A string with no character of the class is left alone. *)
Lemma scan_none (s : list ascii) :
  Forall (fun c => p c = false) s -> forall b, Re.scan p r b s = s.
Proof.
  induction 1 as [| c t Hc _ IH]; intros b; simpl.
  - reflexivity.
  - rewrite Hc. now rewrite IH.
Qed.

(** The scan restarts after a character outside the class. *)
Lemma scan_app (s t : list ascii) (c : ascii) :
  p c = false ->
  forall b, Re.scan p r b (s ++ c :: t) = Re.scan p r b s ++ c :: Re.scan p r false t.
Proof.
  intros Hc. induction s as [| a s IH]; intros b; simpl.
  - now rewrite Hc.
  - destruct (p a); [destruct b |]; now rewrite IH.
Qed.

End Scan.

Lemma scan_dash_start (b : bool) (s : list ascii) :
  starts_with_dash (Re.scan Char.is_dash Char.dash b s) = true ->
  b = false /\ starts_with_dash s = true.
Proof.
  revert b. induction s as [| c t IH]; intros b; simpl.
  - discriminate.
  - destruct (Char.is_dash c) eqn:Hc.
    + destruct b; [| now intros _].
      intros H. apply IH in H as [H _]. discriminate.
    + simpl. rewrite Hc. discriminate.
Qed.

(** After [re.sub(r"-+", "-", s)] no two dashes are adjacent. *)
Lemma scan_dash_no_run (s : list ascii) (b : bool) :
  no_dash_run_chars (Re.scan Char.is_dash Char.dash b s) = true.
Proof.
  revert b. induction s as [| c t IH]; intros b; simpl.
  - reflexivity.
  - destruct (Char.is_dash c) eqn:Hc.
    + destruct b; [apply IH |]. simpl. rewrite IH, andb_true_r.
      destruct (starts_with_dash _) eqn:Hs; [| reflexivity].
      apply scan_dash_start in Hs as [Hs _]. discriminate.
    + simpl. rewrite Hc, IH. reflexivity.
Qed.

(** A string without adjacent dashes is a fixed point of that substitution. *)
Lemma scan_dash_fixed (s : list ascii) :
  no_dash_run_chars s = true ->
  forall b, (b = true -> starts_with_dash s = false) ->
  Re.scan Char.is_dash Char.dash b s = s.
Proof.
  induction s as [| c t IH]; intros Hrun b Hb; simpl.
  - reflexivity.
  - simpl in Hrun. apply andb_prop in Hrun as [Hc Ht].
    destruct (Char.is_dash c) eqn:Hd.
    + destruct b; [simpl in Hb; rewrite Hd in Hb; now specialize (Hb eq_refl) |].
      pose proof (dash_unique c Hd) as ->. f_equal. apply IH; [exact Ht |].
      intros _. simpl in Hc. now destruct (starts_with_dash t).
    + f_equal. apply IH; [exact Ht | discriminate].
Qed.

(** ** [strip] *)

Lemma lstrip_Forall (Q : ascii -> Prop) (s : list ascii) :
  Forall Q s -> Forall Q (lstrip s).
Proof.
  induction 1 as [| c t Hc Ht IH]; simpl.
  - constructor.
  - destruct (Char.is_space c); [exact IH | now constructor].
Qed.

Lemma strip_Forall (Q : ascii -> Prop) (s : list ascii) :
  Forall Q s -> Forall Q (strip s).
Proof.
  intros H. unfold strip, rstrip.
  apply Forall_rev, lstrip_Forall, Forall_rev, lstrip_Forall, H.
Qed.

Lemma lstrip_no_space (s : list ascii) :
  Forall (fun c => Char.is_space c = false) s -> lstrip s = s.
Proof. destruct 1 as [| c t Hc _]; simpl; [reflexivity | now rewrite Hc]. Qed.

Lemma strip_no_space (s : list ascii) :
  Forall (fun c => Char.is_space c = false) s -> strip s = s.
Proof.
  intros H. unfold strip, rstrip.
  rewrite (lstrip_no_space s H), lstrip_no_space by now apply Forall_rev.
  apply rev_involutive.
Qed.

(** ** The two ends of a string through [strip] and the scans *)

Lemma starts_with_dash_hd_in (l : list ascii) :
  starts_with_dash l = hd_in Char.is_dash l.
Proof. reflexivity. Qed.

Lemma hd_in_Forall (p : ascii -> bool) (l : list ascii) :
  Forall (fun c => p c = false) l -> hd_in p l = false.
Proof. now destruct 1. Qed.

Lemma lstrip_hd (s : list ascii) : hd_in Char.is_space (lstrip s) = false.
Proof.
  induction s as [| c t IH]; simpl; [reflexivity |].
  destruct (Char.is_space c) eqn:Hc; [exact IH | exact Hc].
Qed.

Lemma lstrip_app (u v : list ascii) (c : ascii) :
  Char.is_space c = false -> lstrip (u ++ c :: v) = lstrip u ++ c :: v.
Proof.
  intros Hc. induction u as [| a u IH]; simpl.
  - now rewrite Hc.
  - destruct (Char.is_space a); [exact IH | reflexivity].
Qed.

Lemma strip_last (s : list ascii) : hd_in Char.is_space (rev (strip s)) = false.
Proof. unfold strip, rstrip. rewrite rev_involutive. apply lstrip_hd. Qed.

Lemma strip_hd (s : list ascii) : hd_in Char.is_space (strip s) = false.
Proof.
  unfold strip, rstrip. pose proof (lstrip_hd s) as H.
  destruct (lstrip s) as [| c t]; [reflexivity |]. simpl in H.
  simpl rev at 2. change (rev t ++ [c]) with (rev t ++ c :: []).
  rewrite (lstrip_app _ _ _ H), rev_app_distr. exact H.
Qed.

Lemma scan_hd (p q : ascii -> bool) (r : ascii) (s : list ascii) :
  hd_in p s = false -> hd_in q (Re.scan p r false s) = hd_in q s.
Proof. destruct s as [| c t]; simpl; [reflexivity |]. now intros ->. Qed.

Lemma scan_last (p q : ascii -> bool) (r : ascii) (s : list ascii) (b : bool) :
  hd_in p (rev s) = false ->
  hd_in q (rev (Re.scan p r b s)) = hd_in q (rev s).
Proof.
  rewrite <- (rev_involutive s) at 2.
  destruct (rev s) as [| c t]; simpl; [reflexivity |].
  intros Hc. change (rev t ++ [c]) with (rev t ++ c :: []).
  rewrite (scan_app p r _ _ _ Hc). simpl.
  now rewrite rev_app_distr.
Qed.

(** ** [slugify] *)

Lemma lower_dash (c : ascii) : Char.is_dash (Char.lower c) = true -> Char.is_dash c = true.
Proof. each_char c. Qed.

Lemma chars_slugify (x : string) : chars (slugify x) = slug_chars (chars x).
Proof. unfold chars, slugify. apply list_ascii_of_string_of_list_ascii. Qed.

(** What is left after lowering, filtering and stripping. *)
Lemma filtered_Forall (s : list ascii) :
  Forall (fun c => Char.is_space c = false -> slug_char c = true)
         (strip (Re.sub_not_word_space_dash (List.map Char.lower s))).
Proof.
  apply strip_Forall. rewrite Forall_forall. intros c Hc.
  apply list_elem_of_In, filter_In in Hc as [Hin Hk].
  apply in_map_iff in Hin as [c' [<- _]].
  now apply kept_lower_is_slug_char.
Qed.

Lemma slug_chars_Forall (s : list ascii) :
  Forall (fun c => slug_char c = true) (slug_chars s).
Proof.
  unfold slug_chars, Re.sub_plus.
  apply scan_Forall; [reflexivity |].
  eapply Forall_impl; [| intros c Hc _; exact Hc].
  apply scan_Forall; [reflexivity |]. apply filtered_Forall.
Qed.

Lemma slug_chars_no_run (s : list ascii) : no_dash_run_chars (slug_chars s) = true.
Proof. apply scan_dash_no_run. Qed.

Lemma slug_chars_fixed (y : list ascii) :
  Forall (fun c => slug_char c = true) y -> no_dash_run_chars y = true ->
  slug_chars y = y.
Proof.
  intros Hy Hrun. unfold slug_chars, Re.sub_plus, Re.sub_not_word_space_dash.
  assert (Hsp : Forall (fun c => Char.is_space c = false) y)
    by (eapply Forall_impl; [exact Hy | exact slug_char_not_space]).
  assert (Hlow : List.map Char.lower y = y).
  { clear Hrun Hsp. induction Hy as [| c t Hc _ IH]; simpl; [reflexivity |].
    now rewrite IH, slug_char_lower. }
  assert (Hkeep : List.filter Re.keeps y = y).
  { clear Hrun Hsp Hlow. induction Hy as [| c t Hc _ IH]; simpl; [reflexivity |].
    now rewrite (slug_char_keeps c Hc), IH. }
  rewrite Hlow, Hkeep, (strip_no_space y Hsp), (scan_none _ _ y Hsp).
  apply scan_dash_fixed; [exact Hrun | discriminate].
Qed.

Lemma slug_chars_idempotent (s : list ascii) :
  slug_chars (slug_chars s) = slug_chars s.
Proof. apply slug_chars_fixed; [apply slug_chars_Forall | apply slug_chars_no_run]. Qed.

Lemma slugify_idempotent (x : string) : slugify (slugify x) = slugify x.
Proof.
  unfold slugify at 1. fold (chars (slugify x)).
  rewrite chars_slugify, slug_chars_idempotent. reflexivity.
Qed.

(** Without a dash in the input, a dash of the slug stands for inner
    whitespace, so neither end is one. *)
Lemma slug_chars_ends (s : list ascii) :
  Forall (fun c => Char.is_dash c = false) s ->
  starts_with_dash (slug_chars s) = false
  /\ starts_with_dash (rev (slug_chars s)) = false.
Proof.
  intros Hs. unfold slug_chars, Re.sub_plus.
  set (t := strip (Re.sub_not_word_space_dash (List.map Char.lower s))).
  assert (Ht : Forall (fun c => Char.is_dash c = false) t).
  { apply strip_Forall. rewrite Forall_forall. intros c Hc.
    apply list_elem_of_In, filter_In in Hc as [Hin _].
    apply in_map_iff in Hin as [c' [<- Hin]].
    rewrite Forall_forall in Hs. apply list_elem_of_In, Hs in Hin.
    destruct (Char.is_dash (Char.lower c')) eqn:E; [| reflexivity].
    apply lower_dash in E. congruence. }
  assert (H1 : hd_in Char.is_dash (Re.scan Char.is_space Char.dash false t) = false).
  { rewrite scan_hd by apply strip_hd. now apply hd_in_Forall. }
  assert (H2 : hd_in Char.is_dash (rev (Re.scan Char.is_space Char.dash false t)) = false).
  { rewrite scan_last by apply strip_last. now apply hd_in_Forall, Forall_rev. }
  split; rewrite starts_with_dash_hd_in.
  - now rewrite scan_hd.
  - now rewrite scan_last.
Qed.

Lemma lower_word (c : ascii) : Char.is_word (Char.lower c) = Char.is_word c.
Proof. each_char c. Qed.

Lemma lower_is_dash (c : ascii) : Char.is_dash (Char.lower c) = Char.is_dash c.
Proof. each_char c. Qed.

Lemma lower_space (c : ascii) : Char.is_space (Char.lower c) = Char.is_space c.
Proof. each_char c. Qed.

Lemma scan_nil (p : ascii -> bool) (r : ascii) (s : list ascii) :
  Re.scan p r false s = [] -> s = [].
Proof.
  destruct s as [| c t]; [reflexivity |]. simpl. destruct (p c); discriminate.
Qed.

(** ** The two ends of a slug *)

Lemma hd_rev_cons (q : ascii -> bool) (c : ascii) (t : list ascii) :
  hd_in q (rev (c :: t))
  = match t with
    | [] => q c
    | _ :: _ => hd_in q (rev t)
    end.
Proof.
  destruct t as [| a t]; [reflexivity |]. simpl.
  destruct (rev t) as [| x l]; reflexivity.
Qed.

Lemma hd_rev_all (q : ascii -> bool) (a : ascii) (t : list ascii) :
  forallb q (a :: t) = true -> hd_in q (rev (a :: t)) = true.
Proof.
  revert a. induction t as [| b t IH]; intros a H.
  - simpl in *. now rewrite andb_true_r in H.
  - rewrite hd_rev_cons. apply IH. simpl in H. now apply andb_prop in H as [_ H].
Qed.

Lemma scan_in_run_nil (p : ascii -> bool) (r : ascii) (s : list ascii) :
  Re.scan p r true s = [] <-> forallb p s = true.
Proof.
  induction s as [| c t IH]; simpl; [tauto |].
  destruct (p c); simpl; [exact IH | split; discriminate].
Qed.

Lemma scan_dash_hd (s : list ascii) :
  hd_in Char.is_dash (Re.scan Char.is_dash Char.dash false s) = hd_in Char.is_dash s.
Proof.
  destruct s as [| c t]; [reflexivity |]. simpl.
  destruct (Char.is_dash c) eqn:Hc; simpl; [reflexivity | exact Hc].
Qed.

(** The last character after [re.sub(r"-+", "-", s)] is a dash when the
    last character before is, unless the scan is inside a run that is all
    there is. *)
Lemma scan_dash_last_gen (s : list ascii) (b : bool) :
  hd_in Char.is_dash (rev (Re.scan Char.is_dash Char.dash b s))
  = hd_in Char.is_dash (rev s) && negb (b && forallb Char.is_dash s).
Proof.
  revert b. induction s as [| c t IH]; intros b.
  - reflexivity.
  - cbn [Re.scan forallb]. destruct (Char.is_dash c) eqn:Hc.
    + destruct b.
      * rewrite IH, hd_rev_cons. destruct t as [| a t']; [| reflexivity].
        simpl. now rewrite Hc.
      * rewrite !hd_rev_cons, andb_true_r.
        destruct t as [| a t']; [simpl; now rewrite Hc |].
        destruct (Re.scan Char.is_dash Char.dash true (a :: t')) as [| x l] eqn:E.
        -- apply (proj1 (scan_in_run_nil _ _ _)) in E. symmetry. now apply hd_rev_all.
        -- rewrite <- E, IH.
           destruct (forallb Char.is_dash (a :: t')) eqn:F.
           ++ apply (proj2 (scan_in_run_nil _ Char.dash _)) in F. congruence.
           ++ now rewrite andb_true_r.
    + rewrite !hd_rev_cons. rewrite andb_false_r, andb_true_r.
      destruct t as [| a t']; [reflexivity |].
      destruct (Re.scan Char.is_dash Char.dash false (a :: t')) as [| x l] eqn:E.
      * apply scan_nil in E. discriminate.
      * rewrite <- E, IH. now rewrite andb_true_r.
Qed.

Lemma scan_dash_last (s : list ascii) :
  hd_in Char.is_dash (rev (Re.scan Char.is_dash Char.dash false s))
  = hd_in Char.is_dash (rev s).
Proof. rewrite scan_dash_last_gen. now rewrite andb_true_r. Qed.

Lemma strip_hd_eq (q : ascii -> bool) (s : list ascii) :
  hd_in q (strip s) = hd_in q (lstrip s).
Proof.
  unfold strip, rstrip. pose proof (lstrip_hd s) as H.
  destruct (lstrip s) as [| c t]; [reflexivity |]. simpl in H.
  simpl rev at 2. change (rev t ++ [c]) with (rev t ++ c :: []).
  now rewrite (lstrip_app _ _ _ H), rev_app_distr.
Qed.

Lemma lstrip_snoc_space (q : ascii -> bool) (u : list ascii) (c : ascii) :
  Char.is_space c = true -> hd_in q (lstrip (u ++ [c])) = hd_in q (lstrip u).
Proof.
  intros Hc. induction u as [| a u IH]; simpl.
  - now rewrite Hc.
  - destruct (Char.is_space a); [exact IH | reflexivity].
Qed.

Lemma strip_last_eq (q : ascii -> bool) (s : list ascii) :
  hd_in q (rev (strip s)) = hd_in q (lstrip (rev s)).
Proof.
  unfold strip, rstrip. rewrite rev_involutive.
  induction s as [| c t IH]; [reflexivity |]. cbn [lstrip].
  destruct (Char.is_space c) eqn:Hc; [| reflexivity].
  rewrite IH. simpl rev. now rewrite lstrip_snoc_space.
Qed.

(** After lowering, filtering and trimming on the left, the first character
    is the first slug character of the input, lowered. *)
Lemma kept_hd (l : list ascii) :
  hd_in Char.is_dash (lstrip (Re.sub_not_word_space_dash (List.map Char.lower l)))
  = match first_slug_char l with
    | Some c => Char.is_dash c
    | None => false
    end.
Proof.
  unfold Re.sub_not_word_space_dash.
  induction l as [| c t IH]; [reflexivity |]. cbn [List.map List.filter first_slug_char].
  unfold Re.keeps at 1. rewrite lower_word, lower_is_dash, lower_space.
  destruct (Char.is_word c || Char.is_dash c) eqn:E.
  - assert (Hs : Char.is_space (Char.lower c) = false).
    { rewrite <- lower_word, <- lower_is_dash in E.
      apply orb_prop in E as [E | E];
        [now apply word_not_space | now apply dash_not_space]. }
    assert (Hk : Char.is_word c || Char.is_space c || Char.is_dash c = true).
    { apply orb_prop in E as [-> | ->]; now rewrite ?orb_true_r. }
    rewrite Hk. cbn [lstrip]. rewrite Hs. simpl. apply lower_is_dash.
  - apply orb_false_elim in E as [-> ->]. simpl. rewrite orb_false_r.
    destruct (Char.is_space c) eqn:Hsp.
    + cbn [lstrip]. rewrite lower_space, Hsp. exact IH.
    + exact IH.
Qed.

(** Where the slug begins and ends with a dash. *)
Lemma slug_chars_leading (l : list ascii) :
  starts_with_dash (slug_chars l)
  = match first_slug_char l with
    | Some c => Char.is_dash c
    | None => false
    end.
Proof.
  unfold slug_chars, Re.sub_plus. rewrite starts_with_dash_hd_in, scan_dash_hd.
  rewrite scan_hd by apply strip_hd. rewrite strip_hd_eq. apply kept_hd.
Qed.

Lemma slug_chars_trailing (l : list ascii) :
  starts_with_dash (rev (slug_chars l))
  = match first_slug_char (rev l) with
    | Some c => Char.is_dash c
    | None => false
    end.
Proof.
  unfold slug_chars, Re.sub_plus. rewrite starts_with_dash_hd_in, scan_dash_last.
  rewrite scan_last by apply strip_last. rewrite strip_last_eq.
  unfold Re.sub_not_word_space_dash.
  rewrite <- filter_rev, <- map_rev. apply kept_hd.
Qed.

(** C1, as amended: for every input string [x], [slugify x] is entirely
    lowercase, contains only alphanumeric characters, underscores and
    dashes, and has no run of two or more consecutive dashes; it has a
    leading dash exactly when the first character of [x] that is a letter,
    a digit, an underscore or a dash is a dash, and a trailing dash exactly
    when the last such character is a dash. *)
Theorem slugify_invariant (x : string) :
  is_lowercase (slugify x) = true
  /\ all_chars word_or_dash (slugify x) = true
  /\ no_dash_run (slugify x) = true
  /\ no_leading_dash (slugify x) = negb (leading_is_dash x)
  /\ no_trailing_dash (slugify x) = negb (trailing_is_dash x).
Proof.
  pose proof (slug_chars_Forall (chars x)) as Hall.
  unfold is_lowercase, all_chars, no_dash_run, no_leading_dash, no_trailing_dash,
    leading_is_dash, trailing_is_dash.
  rewrite chars_slugify. repeat split.
  - apply forallb_forall. rewrite Forall_forall in Hall. intros c Hc.
    apply list_elem_of_In, Hall in Hc. unfold slug_char in Hc.
    now apply andb_prop in Hc as [_ Hc].
  - apply forallb_forall. rewrite Forall_forall in Hall. intros c Hc.
    apply list_elem_of_In, Hall in Hc. unfold slug_char in Hc.
    now apply andb_prop in Hc as [Hc _].
  - apply slug_chars_no_run.
  - now rewrite slug_chars_leading.
  - now rewrite slug_chars_trailing.
Qed.

(** C1, as the specification words it, fails: an underscore survives, and
    so do a leading and a trailing dash of the input. *)
Lemma slugify_invariant_as_specified_fails :
  all_chars alnum_or_dash (slugify "a_b") = false
  /\ no_leading_dash (slugify "-a") = false
  /\ no_trailing_dash (slugify "a-") = false
  /\ slug_invariant_as_specified (slugify "-a_b-") = false.
Proof. repeat split. Qed.

(** C2: [slugify] returns a result for every input string, the empty
    string and strings of only punctuation included, and is idempotent:
    [slugify (slugify x) = slugify x]. *)
Theorem slugify_total_idempotent :
  (forall x : string, exists y : string,
      slugify_value (JStr x) = inr y /\ slugify_value (JStr y) = inr y)
  /\ slugify "" = ""
  /\ slugify "?!.,;:" = ""
  /\ (forall x : string, slugify (slugify x) = slugify x).
Proof.
  split; [| split; [reflexivity | split; [reflexivity | exact slugify_idempotent]]].
  intros x. exists (slugify x). simpl. now rewrite slugify_idempotent.
Qed.

(** ** [build_snowplow_vars] *)

Lemma lower_method_typed (r : gmap string json) (k : string) :
  str_or_absent (r !! k) = true ->
  lower_method (dict_get r k (JStr "")) = inr (tracking_text (r !! k)).
Proof.
  unfold dict_get. destruct (r !! k) as [[] |]; simpl; try discriminate; reflexivity.
Qed.

Lemma lower_method_untyped (r : gmap string json) (k : string) :
  str_or_absent (r !! k) = false ->
  lower_method (dict_get r k (JStr "")) = inl AttributeError.
Proof.
  unfold dict_get. destruct (r !! k) as [[] |]; simpl; try discriminate; reflexivity.
Qed.

(** On a typed record the builder returns, and returns [vars_of]. *)
Lemma build_snowplow_vars_typed (r : gmap string json) :
  tracking_typed r = true -> build_snowplow_vars r = inr (vars_of r).
Proof.
  unfold tracking_typed. intros [Hm Hw]%andb_prop.
  unfold build_snowplow_vars.
  rewrite (lower_method_typed r _ Hm). simpl.
  rewrite (lower_method_typed r _ Hw). reflexivity.
Qed.

(** Otherwise it raises. *)
Lemma build_snowplow_vars_untyped (r : gmap string json) :
  tracking_typed r = false -> build_snowplow_vars r = inl AttributeError.
Proof.
  unfold tracking_typed, build_snowplow_vars. intros H.
  destruct (str_or_absent (r !! k_mobile_tracking)) eqn:Hm.
  - rewrite (lower_method_typed r _ Hm). simpl.
    rewrite (lower_method_untyped r _ H). reflexivity.
  - now rewrite (lower_method_untyped r _ Hm).
Qed.

Lemma set_if_truthy_other (k k' : string) (v : json) (m : gmap string json) :
  k <> k' -> set_if_truthy k v m !! k' = m !! k'.
Proof.
  intros Hk. unfold set_if_truthy.
  destruct (truthy v); [now apply lookup_insert_ne | reflexivity].
Qed.

Lemma set_if_truthy_set (k : string) (v : json) (m : gmap string json) :
  truthy v = true -> set_if_truthy k v m !! k = Some v.
Proof. intros H. unfold set_if_truthy. rewrite H. apply lookup_insert_eq. Qed.

Lemma set_if_truthy_skip (k : string) (v : json) (m : gmap string json) :
  truthy v = false -> set_if_truthy k v m = m.
Proof. intros H. unfold set_if_truthy. now rewrite H. Qed.

Ltac other_key := unfold v_brand_name, v_app_ids, v_enable_web_data,
  v_enable_mobile_data, v_start_date; discriminate.

Lemma vars_of_brand_name (r : gmap string json) :
  vars_of r !! v_brand_name = Some (dict_get_none r k_brand_name).
Proof. apply lookup_insert_eq. Qed.

Lemma vars_of_web (r : gmap string json) :
  vars_of r !! v_enable_web_data = Some (JBool (says_yes (r !! k_web_tracking))).
Proof.
  unfold vars_of.
  rewrite lookup_insert_ne by other_key.
  rewrite set_if_truthy_other by other_key.
  apply lookup_insert_eq.
Qed.

Lemma vars_of_mobile (r : gmap string json) :
  vars_of r !! v_enable_mobile_data
  = Some (JBool (says_yes (r !! k_mobile_tracking))).
Proof.
  unfold vars_of.
  rewrite lookup_insert_ne by other_key.
  rewrite set_if_truthy_other by other_key.
  rewrite lookup_insert_ne by other_key.
  apply lookup_insert_eq.
Qed.

Lemma vars_of_app_ids (r : gmap string json) :
  truthy (dict_get_none r k_app_ids) = true ->
  vars_of r !! v_app_ids = Some (dict_get_none r k_app_ids).
Proof.
  intros H. unfold vars_of.
  rewrite lookup_insert_ne by other_key.
  now apply set_if_truthy_set.
Qed.

Lemma vars_of_start_date (r : gmap string json) :
  vars_of r !! v_start_date
  = (set_if_truthy v_start_date (dict_get_none r k_historical_data_since)
       (update_from (dict_get r k_user_set_variables (JDict ∅)) ∅)) !! v_start_date.
Proof.
  unfold vars_of.
  rewrite lookup_insert_ne by other_key.
  rewrite set_if_truthy_other by other_key.
  rewrite lookup_insert_ne by other_key.
  rewrite lookup_insert_ne by other_key.
  reflexivity.
Qed.

(** C5: on every customer record of the data model (the tracking fields
    absent or strings) the builder returns a variables subtree in which
    [snowplow__enable_mobile_data] is false whenever [mobile_tracking] is
    absent or is not ["yes"] up to letter case, and likewise
    [snowplow__enable_web_data] for [web_tracking]. *)
Theorem tracking_flags_false_unless_yes (r : gmap string json) :
  tracking_typed r = true ->
  exists vars : gmap string json,
    build_snowplow_vars r = inr vars
    /\ (says_yes (r !! k_mobile_tracking) = false ->
        vars !! v_enable_mobile_data = Some (JBool false))
    /\ (says_yes (r !! k_web_tracking) = false ->
        vars !! v_enable_web_data = Some (JBool false)).
Proof.
  intros Ht. exists (vars_of r). split; [now apply build_snowplow_vars_typed |].
  split; intros H.
  - now rewrite vars_of_mobile, H.
  - now rewrite vars_of_web, H.
Qed.

Lemma tracking_flags_false_unless_yes_witness :
  exists vars : gmap string json,
    build_snowplow_vars {[ k_mobile_tracking := JStr "No" ]} = inr vars
    /\ vars !! v_enable_mobile_data = Some (JBool false)
    /\ vars !! v_enable_web_data = Some (JBool false).
Proof.
  assert (Ht : tracking_typed {[ k_mobile_tracking := JStr "No" ]} = true)
    by reflexivity.
  destruct (tracking_flags_false_unless_yes _ Ht) as (vars & Hb & Hm & Hw).
  exists vars. split; [exact Hb |].
  split; [apply Hm | apply Hw]; reflexivity.
Defined.

(** C6: the derived keys hold the derived values whatever
    [user_set_variables] supplies under the same names: the brand name is
    the record's [brand_name], the two flags are the two comparisons, and
    the start date and the app ids are the record's when it has them. *)
Theorem derived_keys_override (r : gmap string json) :
  tracking_typed r = true ->
  exists vars : gmap string json,
    build_snowplow_vars r = inr vars
    /\ vars !! v_brand_name = Some (dict_get_none r k_brand_name)
    /\ vars !! v_enable_mobile_data
       = Some (JBool (says_yes (r !! k_mobile_tracking)))
    /\ vars !! v_enable_web_data = Some (JBool (says_yes (r !! k_web_tracking)))
    /\ (truthy (dict_get_none r k_historical_data_since) = true ->
        vars !! v_start_date = Some (dict_get_none r k_historical_data_since))
    /\ (truthy (dict_get_none r k_app_ids) = true ->
        vars !! v_app_ids = Some (dict_get_none r k_app_ids)).
Proof.
  intros Ht. exists (vars_of r). split; [now apply build_snowplow_vars_typed |].
  split; [apply vars_of_brand_name |].
  split; [apply vars_of_mobile |].
  split; [apply vars_of_web |].
  split; intros H.
  - rewrite vars_of_start_date. now apply set_if_truthy_set.
  - now apply vars_of_app_ids.
Qed.

Lemma derived_keys_override_witness :
  exists vars : gmap string json,
    build_snowplow_vars record_x_y = inr vars
    /\ vars !! v_brand_name = Some (JStr "Y").
Proof.
  assert (Ht : tracking_typed record_x_y = true) by reflexivity.
  destruct (derived_keys_override record_x_y Ht) as (vars & Hb & Hn & _).
  exists vars. split; [exact Hb | exact Hn].
Defined.

(** C10: when [historical_data_since] is absent or empty and
    [user_set_variables] is a mapping with the key [snowplow__start_date],
    the variables subtree holds that key with the user's value. *)
Theorem user_start_date_survives (r u : gmap string json) (v : json) :
  tracking_typed r = true ->
  truthy (dict_get_none r k_historical_data_since) = false ->
  r !! k_user_set_variables = Some (JDict u) ->
  u !! v_start_date = Some v ->
  exists vars : gmap string json,
    build_snowplow_vars r = inr vars /\ vars !! v_start_date = Some v.
Proof.
  intros Ht Hh Hu Hv. exists (vars_of r).
  split; [now apply build_snowplow_vars_typed |].
  rewrite vars_of_start_date, (set_if_truthy_skip _ _ _ Hh).
  unfold dict_get. rewrite Hu. simpl.
  rewrite lookup_union_l'; [exact Hv | now rewrite Hv].
Qed.

Lemma user_start_date_survives_witness :
  exists vars : gmap string json,
    build_snowplow_vars record_user_start = inr vars
    /\ vars !! v_start_date = Some (JStr "2020-02-02").
Proof.
  apply (user_start_date_survives record_user_start
           {[ v_start_date := JStr "2020-02-02" ]} (JStr "2020-02-02"));
    reflexivity.
Defined.

(** C7 fails on the code: a tracking field that is not a string makes the
    builder raise [AttributeError] at [.lower()], be it a boolean, a null
    or a number, while a [user_set_variables] that is not a mapping is
    ignored and an absent [brand_name] becomes null. *)
Theorem build_snowplow_vars_raises :
  build_snowplow_vars {[ k_mobile_tracking := JBool true ]} = inl AttributeError
  /\ build_snowplow_vars {[ k_web_tracking := JNull ]} = inl AttributeError
  /\ build_snowplow_vars {[ k_mobile_tracking := JInt 1 ]} = inl AttributeError
  /\ (exists vars : gmap string json,
        build_snowplow_vars {[ k_user_set_variables := JInt 7 ]} = inr vars
        /\ vars !! v_brand_name = Some JNull).
Proof.
  repeat split. exists (vars_of {[ k_user_set_variables := JInt 7 ]}).
  split; reflexivity.
Qed.

(** ** The configuration tree *)

Lemma config_vars_dbt_project_obj (name : string) (vars : gmap string json) :
  config_vars (dbt_project_obj name vars) = Some vars.
Proof. reflexivity. Qed.

Lemma name_dbt_project_obj (name : string) (vars : gmap string json) :
  cm_get "name" (dbt_project_obj name vars) = Some (YDqs name).
Proof. reflexivity. Qed.

(** C3, as amended: for the empty record the slug is ["unnamed_brand"]
    (the underscore of the placeholder stays), both feature flags of the
    variables subtree are false, it has no [snowplow__start_date] key, and
    [snowplow__brand_name] is null. *)
Theorem empty_record_config :
  slug ∅ = inr "unnamed_brand"
  /\ exists (tree : list (string * ynode)) (vars : gmap string json),
       build_config ∅ = inr tree
       /\ cm_get "name" tree = Some (YDqs "snowplow_unified_for_unnamed_brand")
       /\ config_vars tree = Some vars
       /\ vars !! v_enable_mobile_data = Some (JBool false)
       /\ vars !! v_enable_web_data = Some (JBool false)
       /\ vars !! v_start_date = None
       /\ vars !! v_brand_name = Some JNull.
Proof.
  split; [reflexivity |].
  exists (dbt_project_obj "snowplow_unified_for_unnamed_brand" (vars_of ∅)), (vars_of ∅).
  repeat split.
Qed.

(** C3, as the specification words it, fails: the slug of the empty record
    is not ["unnamed-brand"]. *)
Lemma empty_record_slug_not_dashed :
  slug ∅ = inr "unnamed_brand" /\ slug ∅ <> inr "unnamed-brand".
Proof. split; [reflexivity | discriminate]. Qed.

(** C4, as amended: for every customer record whose [brand_name] is absent
    or a string (the tracking fields being absent or strings), the [name]
    of the built tree is ["snowplow_unified_for_"] followed by the slug of
    [brand_name], the placeholder ["unnamed_brand"] standing in only when
    the key is absent. *)
Theorem config_name_from_brand (r : gmap string json) (b : string) :
  tracking_typed r = true ->
  r !! k_brand_name = None /\ b = "unnamed_brand" \/ r !! k_brand_name = Some (JStr b) ->
  exists tree : list (string * ynode),
    build_config r = inr tree
    /\ cm_get "name" tree = Some (YDqs ("snowplow_unified_for_" +:+ slugify b)).
Proof.
  intros Ht Hb.
  assert (Hbrand : brand r = JStr b).
  { unfold brand, dict_get. destruct Hb as [[-> ->] | ->]; reflexivity. }
  exists (dbt_project_obj (project_name (slugify b)) (vars_of r)). split.
  - unfold build_config, slug. rewrite Hbrand. simpl.
    now rewrite (build_snowplow_vars_typed r Ht).
  - apply name_dbt_project_obj.
Qed.

Lemma config_name_from_brand_witness :
  exists tree : list (string * ynode),
    build_config {[ k_brand_name := JStr "Acme Co." ]} = inr tree
    /\ cm_get "name" tree = Some (YDqs "snowplow_unified_for_acme-co").
Proof.
  assert (Ht : tracking_typed {[ k_brand_name := JStr "Acme Co." ]} = true)
    by reflexivity.
  apply (config_name_from_brand _ "Acme Co." Ht). right. reflexivity.
Defined.

(** C4, as the specification words it, fails on an empty brand name: the
    tree is named with the bare prefix, not after the placeholder. *)
Lemma config_name_empty_brand :
  config_name {[ k_brand_name := JStr "" ]}
    = inr (Some (YDqs "snowplow_unified_for_"))
  /\ name_as_specified {[ k_brand_name := JStr "" ]}
    = inr "snowplow_unified_for_unnamed_brand"
  /\ config_name {[ k_brand_name := JStr "" ]}
    <> inr (Some (YDqs "snowplow_unified_for_unnamed_brand")).
Proof. repeat split. discriminate. Qed.

(** ** Paths and the file system *)



Lemma strip_prefix_app (pre q : list string) : strip_prefix pre (pre ++ q) = Some q.
Proof.
  induction pre as [| a pre IH]; simpl; [reflexivity |].
  now rewrite String.eqb_refl.
Qed.


Lemma strip_prefix_short (pre p : list string) :
  length p < length pre -> strip_prefix pre p = None.
Proof.
  revert p. induction pre as [| a pre IH]; intros [| b p] H; simpl in *; try lia.
  - reflexivity.
  - destruct (String.eqb a b); [apply IH; lia | reflexivity].
Qed.

Lemma fs_at_child (fs : fsmap) (parent : list string) (a : string) :
  fs_at fs (parent ++ [a]) = fs (parent ++ [a]).
Proof. now destruct parent. Qed.

Lemma path_parent_child (parent : list string) (a : string) :
  path_parent (parent ++ [a]) = parent.
Proof. apply removelast_last. Qed.


Lemma fs_set_eq (p : list string) (e : entry) (fs : fsmap) : fs_set p e fs p = Some e.
Proof. unfold fs_set. now rewrite bool_decide_eq_true_2. Qed.

Lemma fs_set_ne (p q : list string) (e : entry) (fs : fsmap) :
  q <> p -> fs_set p e fs q = fs q.
Proof. intros H. unfold fs_set. now rewrite bool_decide_eq_false_2. Qed.

(** *** [os.rename] of a directory onto a sibling name *)

Section Rename.

Variables (fs : fsmap) (parent : list string) (a b : string).
Hypothesis Hab : a <> b.





End Rename.

(** *** [mkdir] *)

Lemma dir_chain_agree (fs fs' : fsmap) (rest done : list string) :
  (forall q, length q <= length done + length rest -> fs' q = fs q) ->
  dir_chain fs' done rest = dir_chain fs done rest.
Proof.
  revert done. induction rest as [| c rest IH]; intros done H; simpl; [reflexivity |].
  rewrite H by (rewrite length_app; simpl; lia).
  destruct (fs (done ++ [c])) as [[] |]; try reflexivity.
  apply IH. intros q Hq. apply H. rewrite length_app in Hq. simpl in *. lia.
Qed.

Lemma dir_chain_at (fs : fsmap) (rest done : list string) :
  dir_chain fs done rest = true -> fs_at fs done = Some Dir ->
  fs_at fs (done ++ rest) = Some Dir.
Proof.
  revert done. induction rest as [| c rest IH]; intros done H Hd; simpl in *.
  - now rewrite app_nil_r.
  - destruct (fs (done ++ [c])) as [[] |] eqn:E; try discriminate.
    change (c :: rest) with ([c] ++ rest). rewrite app_assoc.
    apply IH; [exact H | now rewrite fs_at_child].
Qed.

Lemma mkdir_walk_chain (fs : fsmap) (r1 r2 done : list string) :
  dir_chain fs done r1 = true ->
  mkdir_walk done (r1 ++ r2) fs = mkdir_walk (done ++ r1) r2 fs.
Proof.
  revert done. induction r1 as [| c r1 IH]; intros done H; simpl in *.
  - now rewrite app_nil_r.
  - destruct (fs (done ++ [c])) as [[] |]; try discriminate.
    rewrite (IH _ H), <- app_assoc. reflexivity.
Qed.

(** Creating a missing child of an existing chain of directories. *)
Lemma mkdir_parents_child (fs : fsmap) (parent : list string) (a : string) :
  dir_chain fs [] parent = true -> fs (parent ++ [a]) = None ->
  mkdir_parents (parent ++ [a]) fs = inr (fs_set (parent ++ [a]) Dir fs).
Proof.
  intros Hc Ha. unfold mkdir_parents.
  rewrite (mkdir_walk_chain fs parent [a] [] Hc). simpl. now rewrite Ha.
Qed.

(** ** [handle_project_dir] *)





(** ** The emitter *)

Lemma write_text_writable (fs : fsmap) (p : list string) (content : string) :
  writable fs p = true -> write_text p content fs = inr (fs_set p (File content) fs).
Proof.
  unfold writable, write_text.
  destruct (fs_at fs (path_parent p)) as [[] |]; try discriminate.
  destruct (fs_at fs p) as [[] |]; try discriminate; reflexivity.
Qed.

(** ** A whole generation *)

Lemma bind_inr {A B : Type} (m : IO A) (k : A -> IO B) (w w' : world) (b : B) :
  bind m k w = (inr b, w') ->
  exists (a : A) (w1 : world), m w = (inr a, w1) /\ k a w1 = (inr b, w').
Proof.
  unfold bind. destruct (m w) as [[e | a] w1]; [discriminate |]. eauto.
Qed.

Lemma preserved_off_trans (p0 : list string) (w1 w2 w3 : world) :
  preserved_off p0 w1 w2 -> preserved_off p0 w2 w3 -> preserved_off p0 w1 w3.
Proof.
  intros [Hd1 Hf1] [Hd2 Hf2]. split; [congruence |].
  intros q e Hq H. now apply Hf2, Hf1.
Qed.

Lemma mkdir_walk_preserves (rest done : list string) (fs fs' : fsmap) :
  mkdir_walk done rest fs = inr fs' ->
  forall q e, fs q = Some e -> fs' q = Some e.
Proof.
  revert done fs. induction rest as [| c rest IH]; intros done fs H q e Hq; simpl in H.
  - now inversion H; subst.
  - destruct (fs (done ++ [c])) as [[] |] eqn:E.
    + destruct rest; discriminate.
    + eapply IH; eauto.
    + eapply IH; [exact H |]. rewrite fs_set_ne; [exact Hq | congruence].
Qed.

Lemma fs_call_inr (op : fsmap -> exn + fsmap) (w w' : world) (u : unit) :
  fs_call op w = (inr u, w') ->
  exists fs', op (files w) = inr fs' /\ w' = set_files fs' w.
Proof.
  unfold fs_call. destruct (op (files w)) as [e | fs']; [discriminate |].
  intros H. inversion H. eauto.
Qed.

Lemma mkdir_parents_preserved (p p0 : list string) (w w' : world) (u : unit) :
  fs_call (mkdir_parents p) w = (inr u, w') -> preserved_off p0 w w'.
Proof.
  intros (fs' & H & ->)%fs_call_inr. split; [reflexivity |].
  intros q e _ Hq. cbn [files set_files]. eapply mkdir_walk_preserves; eauto.
Qed.

Lemma mkdir_exist_ok_preserved (p p0 : list string) (w w' : world) (u : unit) :
  fs_call (mkdir_exist_ok p) w = (inr u, w') -> preserved_off p0 w w'.
Proof.
  intros (fs' & H & ->)%fs_call_inr. split; [reflexivity |].
  intros q e _ Hq. cbn [files set_files]. unfold mkdir_exist_ok in H.
  destruct (fs_at (files w) p) as [[] |] eqn:Ep; try discriminate.
  - now inversion H; subst.
  - destruct (fs_at (files w) (path_parent p)) as [[] |]; try discriminate.
    inversion H; subst. rewrite fs_set_ne; [exact Hq |].
    intros ->. destruct p; [discriminate | simpl in Ep; congruence].
Qed.

Lemma write_text_effect (p : list string) (c : string) (w w' : world) (u : unit) :
  fs_call (write_text p c) w = (inr u, w') ->
  files w' p = Some (File c) /\ preserved_off p w w'.
Proof.
  intros (fs' & H & ->)%fs_call_inr. unfold write_text in H.
  destruct (fs_at (files w) (path_parent p)) as [[] |]; try discriminate.
  assert (fs' = fs_set p (File c) (files w)) as ->
    by (destruct (fs_at (files w) p) as [[] |]; congruence).
  cbn [files set_files]. split; [apply fs_set_eq |].
  split; [reflexivity |]. intros q e Hq Hf. cbn [files set_files].
  now rewrite fs_set_ne.
Qed.

Lemma print_inr (line : string) (w w' : world) (u : unit) :
  print line w = (inr u, w') -> w' = put_stdout line w.
Proof. unfold print. now inversion 1. Qed.

Lemma dump_yaml_effect (yaml_dump : YAML -> ynode -> string) (obj : ynode)
    (p : list string) (w w' : world) (u : unit) :
  dump_yaml yaml_dump obj p w = (inr u, w') ->
  files w' p = Some (File (yaml_dump yaml obj)) /\ preserved_off p w w'.
Proof.
  unfold dump_yaml. intros (a & w1 & H1 & ->%print_inr)%bind_inr.
  now apply write_text_effect in H1.
Qed.

Lemma write_file_effect (p : list string) (c : string) (w w' : world) (u : unit) :
  write_file p c w = (inr u, w') ->
  files w' p = Some (File c) /\ preserved_off p w w'.
Proof.
  unfold write_file.
  intros (a & w1 & H1 & (a2 & w2 & H2 & ->%print_inr)%bind_inr)%bind_inr.
  apply (mkdir_parents_preserved _ p) in H1.
  apply write_text_effect in H2 as [Hf H2]. split; [exact Hf |].
  now apply (preserved_off_trans p w w1).
Qed.

Lemma handle_project_dir_today (project_dir : list string) (w w' : world) (u : unit) :
  handle_project_dir project_dir w = (inr u, w') -> today_iso w' = today_iso w.
Proof.
  unfold handle_project_dir, bind, path_exists, strftime_now, input, ret, print, fs_call.
  destruct (fs_at (files w) project_dir); [| now inversion 1].
  cbn [stdin put_stdout].
  destruct (stdin w) as [| line rest]; [discriminate |].
  destruct (negb _); cbn [files set_stdin];
    match goal with
    | |- context [shutil_move ?a ?b ?f] => destruct (shutil_move a b f)
    | |- context [shutil_rmtree ?a ?f] => destruct (shutil_rmtree a f)
    end; try discriminate; now inversion 1.
Qed.

Lemma sibling_file_differs (dir : list string) (a b : string) :
  a <> b -> dir ++ [a] <> dir ++ [b].
Proof. intros Hab E. apply app_inv_head in E. congruence. Qed.

(** What a completed generation has written, as a function of the record,
    the package reference and the date. *)
Lemma generate_project_for_customer_files
    (yaml_dump : YAML -> ynode -> string) (r : gmap string json)
    (out_root : list string) (git ref : string) (w w' : world) (dir : list string) :
  generate_project_for_customer yaml_dump r out_root git ref w = (inr dir, w') ->
  exists (b : string) (vars : gmap string json),
    brand r = JStr b
    /\ build_snowplow_vars r = inr vars
    /\ dir = out_root ++ ["dbt_" +:+ slugify b]
    /\ files w' (dir ++ ["packages.yml"])
       = Some (File (yaml_dump yaml (packages_obj git ref)))
    /\ files w' (dir ++ ["dbt_project.yml"])
       = Some (File (yaml_dump yaml
                       (YMap (dbt_project_obj (project_name (slugify b)) vars))))
    /\ files w' (dir ++ ["profiles.example.yml"]) = Some (File profiles_example)
    /\ files w' (dir ++ ["README.md"])
       = Some (File (readme (project_name (slugify b)) (today_iso w) b)).
Proof.
  unfold generate_project_for_customer.
  destruct (brand r) as [| | | | b | |] eqn:Hb; try discriminate.
  set (pd := out_root ++ ["dbt_" +:+ slugify b]).
  intros (u1 & w1 & Hh & H)%bind_inr.
  apply bind_inr in H as (u2 & w2 & Hmk & H).
  apply bind_inr in H as (now & w3 & Hnow & H).
  apply bind_inr in H as (u4 & w4 & Hpk & H).
  apply bind_inr in H as (vars & w5 & Hv & H).
  apply bind_inr in H as (u6 & w6 & Hprj & H).
  apply bind_inr in H as (u7 & w7 & Hprof & H).
  apply bind_inr in H as (u8 & w8 & Hrd & H).
  apply bind_inr in H as (u9 & w9 & Hmod & H).
  apply bind_inr in H as (u10 & w10 & ->%print_inr & H).
  unfold ret in H. inversion H; subst dir w'; clear H.
  unfold date_today in Hnow. inversion Hnow; subst now w3; clear Hnow.
  unfold lift in Hv. inversion Hv; subst w5; clear Hv.
  apply handle_project_dir_today in Hh.
  pose proof (mkdir_parents_preserved _ [] _ _ _ Hmk) as [Hd2 _].
  apply dump_yaml_effect in Hpk as [Fpk [_ Ppk]].
  apply dump_yaml_effect in Hprj as [Fprj [_ Pprj]].
  apply write_file_effect in Hprof as [Fprof [_ Pprof]].
  apply write_file_effect in Hrd as [Frd [_ Prd]].
  pose proof (mkdir_exist_ok_preserved _ [] _ _ _ Hmod) as [_ Pmod].
  assert (Hfin : forall line q e, q <> [] -> files w8 q = Some e ->
                                  files (put_stdout line w9) q = Some e).
  { intros line q e Hq Hf. cbn [files put_stdout]. now apply Pmod. }
  assert (Hne : forall a, pd ++ [a] <> []) by (intros a; destruct pd; discriminate).
  exists b, vars. repeat split; try assumption.
  - apply Hfin, Prd, Pprof, Pprj; try apply Hne; try exact Fpk;
      apply sibling_file_differs; discriminate.
  - apply Hfin, Prd, Pprof; try apply Hne; try exact Fprj;
      apply sibling_file_differs; discriminate.
  - apply Hfin, Prd; try apply Hne; try exact Fprof;
      apply sibling_file_differs; discriminate.
  - rewrite <- Hh, <- Hd2. apply Hfin; [apply Hne | exact Frd].
Qed.

(** ** The scenario of the specification, run *)

Example acme_config :
  slug record_acme = inr "acme-co"
  /\ config_name record_acme = inr (Some (YDqs "snowplow_unified_for_acme-co"))
  /\ build_snowplow_vars record_acme
     = inr (<[v_brand_name := JStr "Acme Co."]>
             (<[v_enable_web_data := JBool true]>
               (<[v_enable_mobile_data := JBool false]>
                 {[ v_start_date := JStr "2023-01-01" ]}))).
Proof. repeat split. Qed.

Example acme_generation :
  let run := generate_project_for_customer sample_dump record_acme ["out"]
               DEFAULT_PACKAGE_GIT DEFAULT_PACKAGE_REF fresh_world in
  fst run = inr ["out"; "dbt_acme-co"]
  /\ files (snd run) ["out"; "dbt_acme-co"; "README.md"]
     = Some (File (readme "snowplow_unified_for_acme-co" "2024-01-01" "Acme Co."))
  /\ files (snd run) ["out"; "dbt_acme-co"; "models"] = Some Dir
  /\ stdout (snd run)
     = ["wrote: out/dbt_acme-co/packages.yml";
        "wrote: out/dbt_acme-co/dbt_project.yml";
        "wrote: out/dbt_acme-co/profiles.example.yml";
        "wrote: out/dbt_acme-co/README.md";
        "Project for 'Acme Co.' generated at: out/dbt_acme-co"].
Proof. vm_compute. repeat split. Qed.

(** ** The other answer: overwrite *)

Lemma under_child_short (parent q : list string) (a : string) :
  length q <= length parent -> under (parent ++ [a]) q = false.
Proof.
  intros H. unfold under. rewrite strip_prefix_short; [reflexivity |].
  rewrite length_app. simpl. lia.
Qed.

(** X11: With the answer [y] the prior tree is removed: after
    [handle_project_dir] and the [mkdir] that follows, the project path is
    an empty directory and everything outside it is as before. *)
Theorem overwrite_removes_prior_directory
    (parent : list string) (name line : string) (rest : list string) (w : world) :
  files w (parent ++ [name]) = Some Dir ->
  dir_chain (files w) [] parent = true ->
  stdin w = line :: rest ->
  str_lower (str_strip line) = "y" ->
  exists w' : world,
    (handle_project_dir (parent ++ [name]) ;;
     fs_call (mkdir_parents (parent ++ [name]))) w = (inr tt, w')
    /\ files w' (parent ++ [name]) = Some Dir
    /\ (forall q, q <> [] -> files w' ((parent ++ [name]) ++ q) = None)
    /\ (forall p, under (parent ++ [name]) p = false -> files w' p = files w p).
Proof.
  intros He Hc Hin Hresp.
  set (fs1 := fs_remove_tree (parent ++ [name]) (files w)).
  assert (Hc1 : dir_chain fs1 [] parent = true).
  { rewrite <- Hc. apply dir_chain_agree. intros q Hq. unfold fs1, fs_remove_tree.
    now rewrite under_child_short. }
  assert (Hgone : forall q, fs1 ((parent ++ [name]) ++ q) = None).
  { intros q. unfold fs1, fs_remove_tree, under. now rewrite strip_prefix_app. }
  assert (Hv1 : fs1 (parent ++ [name]) = None).
  { rewrite <- (app_nil_r (parent ++ [name])). apply Hgone. }
  eexists. split.
  - unfold bind at 1. unfold handle_project_dir, bind, path_exists, strftime_now,
      input, fs_call, print.
    rewrite fs_at_child, He. cbn [stdin put_stdout]. rewrite Hin, Hresp.
    cbn [negb String.eqb Ascii.eqb Bool.eqb].
    cbn [files set_stdin set_files put_stdout].
    unfold shutil_rmtree. rewrite fs_at_child, He.
    cbn [files set_stdin set_files put_stdout]. fold fs1.
    rewrite (mkdir_parents_child fs1 parent name Hc1 Hv1). reflexivity.
  - cbn [files set_files]. repeat split.
    + apply fs_set_eq.
    + intros q Hq. rewrite fs_set_ne; [apply Hgone |].
      intros E. apply (f_equal length) in E. rewrite !length_app in E.
      destruct q; [congruence | simpl in E; lia].
    + intros p Hp. rewrite fs_set_ne.
      * unfold fs1, fs_remove_tree. now rewrite Hp.
      * intros ->. unfold under in Hp.
        rewrite <- (app_nil_r (parent ++ [name])) in Hp at 2.
        now rewrite strip_prefix_app in Hp.
Qed.

(** * Further properties of the code *)

(** ** [slugify]: when the slug is empty, and which strings it leaves alone *)

Lemma lstrip_nil (s : list ascii) :
  lstrip s = [] <-> Forall (fun c => Char.is_space c = true) s.
Proof.
  induction s as [| c t IH]; simpl.
  - split; [constructor | reflexivity].
  - destruct (Char.is_space c) eqn:Hc.
    + rewrite IH. split; [now constructor | now inversion 1].
    + split; [discriminate | inversion 1; congruence].
Qed.

Lemma strip_nil (s : list ascii) :
  strip s = [] <-> Forall (fun c => Char.is_space c = true) s.
Proof.
  unfold strip, rstrip. rewrite <- lstrip_nil. split.
  - intros H. apply (f_equal (@rev ascii)) in H. rewrite rev_involutive in H.
    simpl in H. apply lstrip_nil, Forall_rev in H. rewrite rev_involutive in H.
    pose proof (lstrip_hd s) as Hh. destruct H as [| c t Hc _]; [reflexivity |].
    simpl in Hh. congruence.
  - now intros ->.
Qed.

Lemma slug_chars_nil (s : list ascii) :
  slug_chars s = [] <->
  Forall (fun c => Char.is_word c || Char.is_dash c = false) s.
Proof.
  unfold slug_chars, Re.sub_plus, Re.sub_not_word_space_dash. split.
  - intros H. apply scan_nil, scan_nil, strip_nil in H.
    rewrite Forall_forall in *. intros c Hc.
    destruct (Char.is_word c || Char.is_dash c) eqn:E; [| reflexivity].
    assert (Hk : Re.keeps (Char.lower c) = true).
    { unfold Re.keeps. rewrite lower_word, lower_is_dash.
      apply orb_prop in E as [-> | ->]; now rewrite ?orb_true_r. }
    assert (Hin : Char.lower c ∈ List.filter Re.keeps (List.map Char.lower s)).
    { apply list_elem_of_In, filter_In. split; [| exact Hk].
      apply in_map. now apply list_elem_of_In. }
    apply H in Hin. rewrite <- lower_word, <- lower_is_dash in E.
    apply orb_prop in E as [E | E].
    + apply word_not_space in E. congruence.
    + apply dash_not_space in E. congruence.
  - intros H.
    assert (Hs : strip (List.filter Re.keeps (List.map Char.lower s)) = []).
    { apply strip_nil. rewrite Forall_forall in *. intros c Hc.
      apply list_elem_of_In, filter_In in Hc as [Hin Hk].
      apply in_map_iff in Hin as [c' [<- Hin]].
      apply list_elem_of_In, H in Hin.
      unfold Re.keeps in Hk. rewrite lower_word, lower_is_dash in Hk.
      apply orb_false_elim in Hin as [Hw Hd]. rewrite Hw, Hd in Hk.
      now rewrite orb_false_r in Hk. }
    now rewrite Hs.
Qed.

Lemma string_of_list_ascii_nil (l : list ascii) :
  string_of_list_ascii l = "" <-> l = [].
Proof. destruct l; simpl; split; congruence. Qed.

(** X1: The slug is empty exactly when the name has no letter, digit,
    underscore or dash: blanks and punctuation alone give [""], and the
    project directory is then named [dbt_]. *)
Theorem slugify_empty_iff (x : string) :
  slugify x = "" <-> has_slug_char x = false.
Proof.
  unfold slugify, has_slug_char. rewrite string_of_list_ascii_nil, slug_chars_nil.
  rewrite Forall_forall. split.
  - intros H. destruct (existsb _ _) eqn:E; [| reflexivity].
    apply existsb_exists in E as (c & Hc & E).
    apply list_elem_of_In, H in Hc. congruence.
  - intros H c Hc. destruct (_ || _) eqn:E; [| reflexivity].
    rewrite <- H. symmetry. apply existsb_exists. exists c.
    split; [now apply list_elem_of_In | exact E].
Qed.

(** X2: Two names that differ only in letter case have the same slug, hence the
    same project directory. *)
Theorem slugify_ignores_case (x y : string) :
  str_lower x = str_lower y -> slugify x = slugify y.
Proof.
  unfold str_lower, slugify, slug_chars. intros H.
  apply (f_equal list_ascii_of_string) in H.
  rewrite !list_ascii_of_string_of_list_ascii in H. now rewrite H.
Qed.

Lemma slugify_ignores_case_witness : slugify "ACME Co" = slugify "acme cO".
Proof. apply slugify_ignores_case. reflexivity. Defined.

Lemma forallb_Forall_true (p : ascii -> bool) (l : list ascii) :
  forallb p l = true <-> Forall (fun c => p c = true) l.
Proof.
  rewrite forallb_forall, Forall_forall. split; intros H c Hc; apply H;
    now apply list_elem_of_In.
Qed.

(** X3: The strings [slugify] returns unchanged are exactly the slugs:
    lowercase, word characters and dashes only, no run of dashes. *)
Theorem slugify_fixed_iff (x : string) :
  slugify x = x <-> is_slug x = true.
Proof.
  unfold is_slug, is_lowercase, all_chars, no_dash_run. split.
  - intros H. rewrite <- H, chars_slugify.
    pose proof (slug_chars_Forall (chars x)) as Hall.
    rewrite slug_chars_no_run, andb_true_r.
    apply andb_true_intro. split; apply forallb_Forall_true;
      (eapply Forall_impl; [exact Hall |]); intros c Hc; unfold slug_char in Hc;
      now apply andb_prop in Hc.
  - intros [[Hl Hw]%andb_prop Hr]%andb_prop.
    unfold slugify. rewrite slug_chars_fixed; [apply string_of_list_ascii_of_string | | exact Hr].
    apply forallb_Forall_true in Hl, Hw. rewrite Forall_forall in *.
    intros c Hc. unfold slug_char. now rewrite (Hw c Hc), (Hl c Hc).
Qed.

(** ** The name of the project directory *)

Lemma word_or_dash_safe (c : ascii) :
  word_or_dash c = true -> negb (Ascii.eqb c "/") && negb (Ascii.eqb c "000") = true.
Proof. each_char c. Qed.

Lemma slugify_chars_safe (x : string) :
  all_chars (fun c => negb (Ascii.eqb c "/") && negb (Ascii.eqb c "000"))
            (slugify x) = true.
Proof.
  unfold all_chars. rewrite chars_slugify. apply forallb_Forall_true.
  eapply Forall_impl; [apply slug_chars_Forall |]. intros c Hc.
  apply word_or_dash_safe. unfold slug_char in Hc. now apply andb_prop in Hc.
Qed.

(** X4: Whatever the brand name, [dbt_<slug>] (and [dbt_init_<slug>] of the
    other script) is a single, ordinary directory name: not empty, not [.]
    or [..], without a slash or a NUL.  The project directory is therefore
    always a direct child of the output root. *)
Theorem project_dir_name_safe (x : string) :
  safe_component ("dbt_" +:+ slugify x) = true
  /\ safe_component ("dbt_init_" +:+ slugify x) = true.
Proof.
  pose proof (slugify_chars_safe x) as H. unfold all_chars in H.
  split; unfold safe_component, all_chars; simpl; exact H.
Qed.

Lemma scan_length (p : ascii -> bool) (r : ascii) (s : list ascii) (b : bool) :
  length (Re.scan p r b s) <= length s.
Proof.
  revert b. induction s as [| c t IH]; intros b; simpl; [lia |].
  pose proof (IH true). pose proof (IH false).
  destruct (p c); [destruct b |]; simpl; lia.
Qed.

Lemma lstrip_length (s : list ascii) : length (lstrip s) <= length s.
Proof.
  induction s as [| c t IH]; simpl; [lia |].
  destruct (Char.is_space c); simpl; lia.
Qed.

Lemma strip_length (s : list ascii) : length (strip s) <= length s.
Proof.
  unfold strip, rstrip. rewrite length_rev.
  pose proof (lstrip_length (rev (lstrip s))) as H. rewrite length_rev in H.
  pose proof (lstrip_length s). lia.
Qed.

Lemma string_length_chars (s : string) : String.length s = length (chars s).
Proof. induction s as [| c s IH]; simpl; [reflexivity | now rewrite IH]. Qed.

(** X5: A slug is never longer than the name it comes from. *)
Theorem slugify_length (x : string) :
  String.length (slugify x) <= String.length x.
Proof.
  rewrite !string_length_chars, chars_slugify.
  unfold slug_chars, Re.sub_plus, Re.sub_not_word_space_dash.
  etransitivity; [apply scan_length |].
  etransitivity; [apply scan_length |].
  etransitivity; [apply strip_length |].
  etransitivity; [apply filter_length_le |].
  now rewrite length_map.
Qed.

(** ** [build_snowplow_vars]: outcome, keys, and what it ignores *)

(** X6: The builder returns exactly on the records whose tracking fields are
    absent or strings, and otherwise raises [AttributeError]; it raises
    nothing else. *)
Theorem build_snowplow_vars_outcome (r : gmap string json) :
  ((exists vars, build_snowplow_vars r = inr vars) <-> tracking_typed r = true)
  /\ (build_snowplow_vars r = inl AttributeError <-> tracking_typed r = false)
  /\ (forall e, build_snowplow_vars r = inl e -> e = AttributeError).
Proof.
  destruct (tracking_typed r) eqn:Ht.
  - rewrite (build_snowplow_vars_typed r Ht). repeat split; eauto; discriminate.
  - rewrite (build_snowplow_vars_untyped r Ht). repeat split; try congruence.
    intros [vars H]. discriminate.
Qed.

Lemma update_from_user_vars (r : gmap string json) :
  update_from (dict_get r k_user_set_variables (JDict ∅)) ∅ = user_vars_of r.
Proof.
  unfold user_vars_of, dict_get.
  destruct (r !! k_user_set_variables) as [[] |]; simpl;
    try reflexivity; apply (right_id_L ∅ (∪)).
Qed.

Lemma vars_of_other (r : gmap string json) (k : string) :
  derived_name k = false -> vars_of r !! k = user_vars_of r !! k.
Proof.
  unfold derived_name. intros H.
  repeat (apply orb_false_elim in H as [H ?]).
  repeat match goal with
         | E : String.eqb _ _ = false |- _ => apply String.eqb_neq in E
         end.
  unfold vars_of.
  rewrite lookup_insert_ne by congruence.
  rewrite set_if_truthy_other by congruence.
  rewrite !lookup_insert_ne by congruence.
  rewrite set_if_truthy_other by congruence.
  now rewrite update_from_user_vars.
Qed.

(** X7: A variable the user set under a name that is not one of the five
    derived names reaches the variables subtree unchanged, and no other
    such name appears there. *)
Theorem user_variables_pass_through (r : gmap string json) :
  tracking_typed r = true ->
  exists vars : gmap string json,
    build_snowplow_vars r = inr vars
    /\ forall k, derived_name k = false -> vars !! k = user_vars_of r !! k.
Proof.
  intros Ht. exists (vars_of r). split; [now apply build_snowplow_vars_typed |].
  apply vars_of_other.
Qed.

Lemma set_if_truthy_lookup (k : string) (v : json) (m : gmap string json) :
  set_if_truthy k v m !! k = if truthy v then Some v else m !! k.
Proof.
  unfold set_if_truthy. destruct (truthy v); [apply lookup_insert_eq | reflexivity].
Qed.

(** X8: The keys of the variables subtree: the two flags and the brand name
    always, the start date and the app ids when the record has a non-empty
    one, and whatever the user set. *)
Theorem variables_keys (r : gmap string json) :
  tracking_typed r = true ->
  exists vars : gmap string json,
    build_snowplow_vars r = inr vars
    /\ forall k,
         is_Some (vars !! k) <->
         k = v_enable_mobile_data \/ k = v_enable_web_data \/ k = v_brand_name
         \/ (k = v_start_date
             /\ truthy (dict_get_none r k_historical_data_since) = true)
         \/ (k = v_app_ids /\ truthy (dict_get_none r k_app_ids) = true)
         \/ is_Some (user_vars_of r !! k).
Proof.
  intros Ht. exists (vars_of r). split; [now apply build_snowplow_vars_typed |].
  intros k. destruct (derived_name k) eqn:Hd.
  - unfold derived_name in Hd.
    repeat (apply orb_prop in Hd as [Hd | Hd]); apply String.eqb_eq in Hd; subst k.
    + rewrite vars_of_start_date, set_if_truthy_lookup, update_from_user_vars.
      destruct (truthy _) eqn:E.
      * split; [intros _; right; right; right; left; now split | eauto].
      * split; [intros H; now repeat right |].
        intros [H | [H | [H | [[_ H] | [[H _] | H]]]]];
          try discriminate; exact H.
    + rewrite vars_of_mobile. split; [now left | eauto].
    + rewrite vars_of_web. split; [right; now left | eauto].
    + unfold vars_of. rewrite lookup_insert_ne by other_key.
      rewrite set_if_truthy_lookup.
      destruct (truthy _) eqn:E.
      * split; [intros _; do 4 right; left; now split | eauto].
      * rewrite !lookup_insert_ne by other_key.
        rewrite set_if_truthy_other by other_key.
        rewrite update_from_user_vars.
        split; [intros H; now repeat right |].
        intros [H | [H | [H | [[H _] | [[_ H] | H]]]]];
          try discriminate; exact H.
    + rewrite vars_of_brand_name. split; [right; right; now left | eauto].
  - rewrite (vars_of_other r k Hd). split; [intros H; now repeat right |].
    unfold derived_name in Hd.
    repeat (apply orb_false_elim in Hd as [Hd ?]).
    repeat match goal with
           | E : String.eqb _ _ = false |- _ => apply String.eqb_neq in E
           end.
    intros [K | [K | [K | [[K _] | [[K _] | K]]]]]; try congruence.
Qed.

Lemma user_variables_pass_through_witness :
  exists vars : gmap string json,
    build_snowplow_vars record_custom = inr vars
    /\ vars !! "snowplow__session_timeout" = Some (JInt 30).
Proof.
  assert (Ht : tracking_typed record_custom = true) by reflexivity.
  destruct (user_variables_pass_through record_custom Ht) as (vars & Hb & Hk).
  exists vars. split; [exact Hb |]. rewrite Hk; reflexivity.
Defined.

Lemma variables_keys_witness :
  exists vars : gmap string json,
    build_snowplow_vars record_acme = inr vars
    /\ is_Some (vars !! v_start_date) /\ ~ is_Some (vars !! v_app_ids).
Proof.
  assert (Ht : tracking_typed record_acme = true) by reflexivity.
  destruct (variables_keys record_acme Ht) as (vars & Hb & Hk).
  exists vars. split; [exact Hb |]. split.
  - apply Hk. do 3 right. left. split; reflexivity.
  - intros H. apply Hk in H.
    destruct H as [H | [H | [H | [[H _] | [[_ H] | [x H]]]]]]; discriminate.
Defined.

(** The builder reads the record through six fields only. *)
Lemma build_snowplow_vars_ext (r r' : gmap string json) :
  update_from (dict_get r k_user_set_variables (JDict ∅)) ∅
  = update_from (dict_get r' k_user_set_variables (JDict ∅)) ∅ ->
  r !! k_historical_data_since = r' !! k_historical_data_since ->
  r !! k_mobile_tracking = r' !! k_mobile_tracking ->
  r !! k_web_tracking = r' !! k_web_tracking ->
  r !! k_app_ids = r' !! k_app_ids ->
  r !! k_brand_name = r' !! k_brand_name ->
  build_snowplow_vars r = build_snowplow_vars r'.
Proof.
  intros Hu Hh Hm Hw Ha Hb. unfold build_snowplow_vars, dict_get_none.
  rewrite Hu. unfold dict_get. now rewrite Hh, Hm, Hw, Ha, Hb.
Qed.

(** X9: A [user_set_variables] that is not a mapping (a list, a string, a
    number, null) counts as none: the outcome is that of the record without
    the field. *)
Theorem malformed_user_variables_ignored (r : gmap string json) (v : json) :
  r !! k_user_set_variables = Some v -> is_dict v = false ->
  build_snowplow_vars r = build_snowplow_vars (delete k_user_set_variables r).
Proof.
  intros Hv Hd. apply build_snowplow_vars_ext;
    try (symmetry; apply lookup_delete_ne; discriminate).
  unfold dict_get. rewrite Hv, lookup_delete_eq.
  destruct v; try discriminate; simpl; symmetry; apply (right_id_L ∅ (∪)).
Qed.

Lemma malformed_user_variables_ignored_witness :
  build_snowplow_vars record_malformed_vars
  = build_snowplow_vars {[ k_brand_name := JStr "Acme Co." ]}.
Proof.
  rewrite (malformed_user_variables_ignored record_malformed_vars (JList [JStr "a"]));
    reflexivity.
Defined.

(** X10: A field the builder does not know is ignored, whatever it holds. *)
Theorem unknown_fields_ignored (r : gmap string json) (k : string) (v : json) :
  recognised_field k = false ->
  build_snowplow_vars (<[k := v]> r) = build_snowplow_vars r.
Proof.
  unfold recognised_field. intros H.
  repeat (apply orb_false_elim in H as [H ?]).
  repeat match goal with
         | E : String.eqb _ _ = false |- _ => apply String.eqb_neq in E
         end.
  apply build_snowplow_vars_ext; try (apply lookup_insert_ne; congruence).
  unfold dict_get. rewrite lookup_insert_ne by congruence. reflexivity.
Qed.

Lemma unknown_fields_ignored_witness :
  build_snowplow_vars (<["industry" := JStr "retail"]> record_acme)
  = build_snowplow_vars record_acme.
Proof. apply unknown_fields_ignored. reflexivity. Defined.

(** ** [handle_project_dir]: the other answers and what is never touched *)

Lemma overwrite_removes_prior_directory_witness :
  exists w' : world,
    (handle_project_dir ["dbt_acme"] ;; fs_call (mkdir_parents ["dbt_acme"]))
      consent_world = (inr tt, w')
    /\ files w' ["dbt_acme"] = Some Dir
    /\ files w' ["dbt_acme"; "dbt_project.yml"] = None.
Proof.
  assert (H1 : files consent_world ([] ++ ["dbt_acme"]) = Some Dir) by reflexivity.
  assert (H2 : dir_chain (files consent_world) [] [] = true) by reflexivity.
  assert (H3 : stdin consent_world = " Y " :: []) by reflexivity.
  assert (H4 : str_lower (str_strip " Y ") = "y") by reflexivity.
  destruct (overwrite_removes_prior_directory [] "dbt_acme" " Y " []
              consent_world H1 H2 H3 H4) as (w' & Hrun & Hdir & Hgone & _).
  exists w'. split; [exact Hrun |]. split; [exact Hdir |].
  apply (Hgone ["dbt_project.yml"]). discriminate.
Defined.

Lemma strip_prefix_app_some (a b p q : list string) :
  strip_prefix (a ++ b) p = Some q -> exists q', strip_prefix a p = Some q'.
Proof.
  revert p. induction a as [| x a IH]; intros p; simpl; [eauto |].
  destruct p as [| y p]; [discriminate |].
  destruct (String.eqb x y); [apply IH | discriminate].
Qed.

Lemma under_app_false (a b p : list string) :
  under a p = false -> under (a ++ b) p = false.
Proof.
  unfold under. intros H.
  destruct (strip_prefix (a ++ b) p) eqn:E; [| reflexivity].
  apply strip_prefix_app_some in E as [q' E]. now rewrite E in H.
Qed.

Lemma fs_rename_frame (src dst p : list string) (fs : fsmap) :
  under src p = false -> under dst p = false -> fs_rename src dst fs p = fs p.
Proof.
  unfold fs_rename, under. intros Hs Hd.
  destruct (strip_prefix dst p); [discriminate |].
  destruct (strip_prefix src p); [discriminate | reflexivity].
Qed.

Lemma shutil_move_frame (src dst p : list string) (fs fs' : fsmap) :
  shutil_move src dst fs = inr fs' ->
  under src p = false -> under dst p = false -> fs' p = fs p.
Proof.
  unfold shutil_move. intros H Hs Hd.
  destruct (fs_at fs src) as [se |]; [| discriminate].
  destruct (fs_at fs dst) as [[] |].
  - destruct se; [| discriminate]. inversion H. now apply fs_rename_frame.
  - destruct (under src (dst ++ [path_name src])); [discriminate |].
    destruct (fs_at fs (dst ++ [path_name src])); [discriminate |].
    inversion H. apply fs_rename_frame; [exact Hs | now apply under_app_false].
  - destruct (under src dst); [discriminate |].
    destruct (fs_at fs (path_parent dst)) as [[] |]; try discriminate.
    inversion H. now apply fs_rename_frame.
Qed.

(** Whatever the answer at the prompt and whether the call completes or
    raises, [handle_project_dir] changes nothing outside the project
    directory and its timestamped sibling. *)
Theorem handle_project_dir_frame (project_dir p : list string) (w : world) :
  under project_dir p = false ->
  under (renamed_dir project_dir (now_stamp w)) p = false ->
  files (snd (handle_project_dir project_dir w)) p = files w p.
Proof.
  intros Hp Hn.
  unfold handle_project_dir, bind, path_exists, strftime_now, input, ret, print, fs_call.
  destruct (fs_at (files w) project_dir); [| reflexivity].
  cbn [stdin put_stdout].
  destruct (stdin w) as [| line rest]; [reflexivity |].
  destruct (negb _); cbn [files set_stdin put_stdout now_stamp].
  - destruct (shutil_move _ _ _) eqn:E; [reflexivity |].
    cbn [snd files set_files put_stdout]. eapply shutil_move_frame; eauto.
  - unfold shutil_rmtree. destruct (fs_at (files w) project_dir) as [[] |];
      try reflexivity.
    cbn [snd files set_files put_stdout]. unfold fs_remove_tree. now rewrite Hp.
Qed.

Lemma handle_project_dir_frame_witness :
  files (snd (handle_project_dir ["dbt_acme"]
                (set_files (fs_set ["dbt_other"] Dir old_project_fs) consent_world)))
        ["dbt_other"]
  = Some Dir.
Proof.
  rewrite (handle_project_dir_frame ["dbt_acme"] ["dbt_other"]); reflexivity.
Defined.

(** ** [mkdir] with [parents=True, exist_ok=True] *)

Lemma no_file_chain_agree (fs fs' : fsmap) (rest done : list string) :
  (forall q, length done < length q -> fs' q = fs q) ->
  no_file_chain fs' done rest = no_file_chain fs done rest.
Proof.
  revert done. induction rest as [| c rest IH]; intros done H; simpl; [reflexivity |].
  rewrite H by (rewrite length_app; simpl; lia).
  destruct (fs (done ++ [c])) as [[] |]; try reflexivity;
    apply IH; intros q Hq; apply H; rewrite length_app in Hq; simpl in Hq; lia.
Qed.

Lemma mkdir_walk_long (rest done : list string) (fs fs' : fsmap) :
  mkdir_walk done rest fs = inr fs' ->
  forall q, length done + length rest < length q -> fs' q = fs q.
Proof.
  revert done fs. induction rest as [| c rest IH]; intros done fs H q Hq; simpl in *.
  - now inversion H.
  - destruct (fs (done ++ [c])) as [[] |] eqn:E.
    + destruct rest; discriminate.
    + eapply IH; [exact H |]. rewrite length_app. simpl. lia.
    + erewrite IH; [| exact H |]; [| rewrite length_app; simpl; lia].
      apply fs_set_ne. intros ->. rewrite length_app in Hq. simpl in Hq. lia.
Qed.

Lemma mkdir_walk_ok (rest done : list string) (fs : fsmap) :
  no_file_chain fs done rest = true ->
  exists fs', mkdir_walk done rest fs = inr fs' /\ dir_chain fs' done rest = true.
Proof.
  revert done fs. induction rest as [| c rest IH]; intros done fs H; simpl in *.
  - eauto.
  - destruct (fs (done ++ [c])) as [[] |] eqn:E; [discriminate | |].
    + destruct (IH _ _ H) as (fs' & Hw & Hc). exists fs'. split; [exact Hw |].
      now rewrite (mkdir_walk_preserves _ _ _ _ Hw _ _ E).
    + destruct (IH (done ++ [c]) (fs_set (done ++ [c]) Dir fs)) as (fs' & Hw & Hc).
      { rewrite <- H. apply no_file_chain_agree. intros q Hq. apply fs_set_ne.
        intros ->. lia. }
      exists fs'. split; [exact Hw |].
      now rewrite (mkdir_walk_preserves _ _ _ _ Hw _ _ (fs_set_eq _ _ _)).
Qed.

Lemma mkdir_walk_blocked (rest done : list string) (fs : fsmap) :
  no_file_chain fs done rest = false ->
  mkdir_walk done rest fs = inl FileExistsError
  \/ mkdir_walk done rest fs = inl NotADirectoryError.
Proof.
  revert done fs. induction rest as [| c rest IH]; intros done fs H; simpl in *.
  - discriminate.
  - destruct (fs (done ++ [c])) as [[] |] eqn:E.
    + destruct rest; auto.
    + now apply IH.
    + apply IH. rewrite <- H. apply no_file_chain_agree. intros q Hq.
      apply fs_set_ne. intros ->. lia.
Qed.

(** ** [write_file] *)




(** X13: A file where a directory is needed stops [write_file] with
    [FileExistsError] or [NotADirectoryError], and nothing is written. *)
Theorem write_file_blocked (p : list string) (content : string) (w : world) :
  no_file_chain (files w) [] (path_parent p) = false ->
  write_file p content w = (inl FileExistsError, w)
  \/ write_file p content w = (inl NotADirectoryError, w).
Proof.
  intros H. unfold write_file, bind, fs_call, mkdir_parents.
  destruct (mkdir_walk_blocked _ _ _ H) as [-> | ->]; auto.
Qed.

Lemma write_file_blocked_witness :
  let w := set_files (fs_set ["out"] (File "") empty_fs) fresh_world in
  write_file ["out"; "dbt_x"; "README.md"] "hello" w = (inl FileExistsError, w)
  \/ write_file ["out"; "dbt_x"; "README.md"] "hello" w = (inl NotADirectoryError, w).
Proof. apply write_file_blocked. reflexivity. Defined.

(** ** A generation step by step *)

Lemma bind_ok {A B : Type} (m : IO A) (k : A -> IO B) (w w1 : world) (a : A) :
  m w = (inr a, w1) -> bind m k w = k a w1.
Proof. unfold bind. now intros ->. Qed.

Lemma bind_err {A B : Type} (m : IO A) (k : A -> IO B) (w w1 : world) (e : exn) :
  m w = (inl e, w1) -> bind m k w = (inl e, w1).
Proof. unfold bind. now intros ->. Qed.

Lemma handle_project_dir_absent (project_dir : list string) (w : world) :
  fs_at (files w) project_dir = None -> handle_project_dir project_dir w = (inr tt, w).
Proof. intros H. unfold handle_project_dir, bind, path_exists. now rewrite H. Qed.

Lemma fs_call_ok (op : fsmap -> exn + fsmap) (w : world) (fs' : fsmap) :
  op (files w) = inr fs' -> fs_call op w = (inr tt, set_files fs' w).
Proof. intros H. unfold fs_call. now rewrite H. Qed.

Lemma dir_chain_set_child (fs : fsmap) (dir : list string) (a : string) (e : entry) :
  dir_chain (fs_set (dir ++ [a]) e fs) [] dir = dir_chain fs [] dir.
Proof.
  apply dir_chain_agree. intros q Hq. apply fs_set_ne. intros ->.
  rewrite length_app in Hq. simpl in Hq. lia.
Qed.

Lemma dir_chain_nonempty (fs : fsmap) (dir : list string) :
  dir_chain fs [] dir = true -> fs_at fs dir = Some Dir.
Proof. intros H. exact (dir_chain_at fs dir [] H eq_refl). Qed.

Lemma writable_child (fs : fsmap) (dir : list string) (a : string) :
  dir_chain fs [] dir = true -> is_dir_entry (fs (dir ++ [a])) = false ->
  writable fs (dir ++ [a]) = true.
Proof.
  intros Hd Ha. unfold writable.
  rewrite path_parent_child, (dir_chain_nonempty fs dir Hd), fs_at_child.
  destruct (fs (dir ++ [a])) as [[] |]; try reflexivity; discriminate.
Qed.

Lemma dump_yaml_child (yaml_dump : YAML -> ynode -> string) (obj : ynode)
    (dir : list string) (a : string) (w : world) :
  dir_chain (files w) [] dir = true ->
  is_dir_entry (files w (dir ++ [a])) = false ->
  dump_yaml yaml_dump obj (dir ++ [a]) w
  = (inr tt,
     put_stdout ("wrote: " +:+ path_str (dir ++ [a]))
       (set_files (fs_set (dir ++ [a]) (File (yaml_dump yaml obj)) (files w)) w)).
Proof.
  intros Hd Ha. unfold dump_yaml, bind, fs_call, print.
  now rewrite (write_text_writable _ _ _ (writable_child _ _ _ Hd Ha)).
Qed.

Lemma mkdir_parents_present (fs : fsmap) (dir : list string) :
  dir_chain fs [] dir = true -> mkdir_parents dir fs = inr fs.
Proof.
  intros H. unfold mkdir_parents. rewrite <- (app_nil_r dir).
  now rewrite (mkdir_walk_chain fs dir [] [] H).
Qed.

Lemma write_file_child (content : string) (dir : list string) (a : string) (w : world) :
  dir_chain (files w) [] dir = true ->
  is_dir_entry (files w (dir ++ [a])) = false ->
  write_file (dir ++ [a]) content w
  = (inr tt,
     put_stdout ("wrote: " +:+ path_str (dir ++ [a]))
       (set_files (fs_set (dir ++ [a]) (File content) (files w))
          (set_files (files w) w))).
Proof.
  intros Hd Ha. unfold write_file, bind, fs_call, print.
  rewrite path_parent_child, (mkdir_parents_present _ _ Hd).
  cbn [files set_files].
  now rewrite (write_text_writable _ _ _ (writable_child _ _ _ Hd Ha)).
Qed.

Lemma mkdir_exist_ok_child (fs : fsmap) (dir : list string) (a : string) :
  dir_chain fs [] dir = true -> fs (dir ++ [a]) = None ->
  mkdir_exist_ok (dir ++ [a]) fs = inr (fs_set (dir ++ [a]) Dir fs).
Proof.
  intros Hd Ha. unfold mkdir_exist_ok.
  now rewrite fs_at_child, Ha, path_parent_child, (dir_chain_nonempty fs dir Hd).
Qed.

Lemma no_file_chain_snoc (fs : fsmap) (rest done : list string) (a : string) :
  no_file_chain fs done rest = true -> fs (done ++ rest ++ [a]) = None ->
  no_file_chain fs done (rest ++ [a]) = true.
Proof.
  revert done. induction rest as [| c rest IH]; intros done H Ha; simpl in *.
  - now rewrite Ha.
  - destruct (fs (done ++ [c])) as [[] |]; try discriminate;
      apply IH; try exact H; now rewrite <- app_assoc.
Qed.

(** Side conditions of a step inside the project directory: the chain of
    directories is still there and the entry about to be made is not. *)
Ltac in_project :=
  cbn [files set_files put_stdout];
  first
    [ rewrite ?dir_chain_set_child; assumption
    | rewrite ?fs_set_ne by (apply sibling_file_differs; discriminate);
      match goal with
      | H : forall q, q <> [] -> _ (_ ++ q) = None |- _ => now rewrite H
      end ].

Lemma brand_of_record (r : gmap string json) (b : string) :
  r !! k_brand_name = None /\ b = "unnamed_brand" \/ r !! k_brand_name = Some (JStr b) ->
  brand r = JStr b.
Proof. unfold brand, dict_get. intros [[-> ->] | ->]; reflexivity. Qed.

(** ** [generate_project_for_customer] where no project exists yet *)

(** X14: On a record of the data model whose directory names and paths a
    Linux file system takes (the model itself has no such limit, and its
    strings are of code points up to U+00FF), with no file in the way of
    the output root and nothing at the project path, the generation
    completes without asking anything: it returns [out_root/dbt_<slug>],
    which then holds the four documents and an empty [models] directory and
    nothing else; every entry that existed is still there, and five lines
    are printed. *)
Theorem generation_in_fresh_location
    (yaml_dump : YAML -> ynode -> string) (r : gmap string json) (b : string)
    (out_root : list string) (git ref : string) (w : world) :
  tracking_typed r = true ->
  r !! k_brand_name = None /\ b = "unnamed_brand" \/ r !! k_brand_name = Some (JStr b) ->
  forallb name_fits (out_root ++ ["dbt_" +:+ slugify b]) = true ->
  path_fits ((out_root ++ ["dbt_" +:+ slugify b]) ++ ["profiles.example.yml"]) = true ->
  no_file_chain (files w) [] out_root = true ->
  (forall q, files w ((out_root ++ ["dbt_" +:+ slugify b]) ++ q) = None) ->
  exists (vars : gmap string json) (w' : world),
    build_snowplow_vars r = inr vars
    /\ generate_project_for_customer yaml_dump r out_root git ref w
       = (inr (out_root ++ ["dbt_" +:+ slugify b]), w')
    /\ files w' (out_root ++ ["dbt_" +:+ slugify b]) = Some Dir
    /\ files w' ((out_root ++ ["dbt_" +:+ slugify b]) ++ ["models"]) = Some Dir
    /\ files w' ((out_root ++ ["dbt_" +:+ slugify b]) ++ ["packages.yml"])
       = Some (File (yaml_dump yaml (packages_obj git ref)))
    /\ files w' ((out_root ++ ["dbt_" +:+ slugify b]) ++ ["dbt_project.yml"])
       = Some (File (yaml_dump yaml
                       (YMap (dbt_project_obj (project_name (slugify b)) vars))))
    /\ files w' ((out_root ++ ["dbt_" +:+ slugify b]) ++ ["profiles.example.yml"])
       = Some (File profiles_example)
    /\ files w' ((out_root ++ ["dbt_" +:+ slugify b]) ++ ["README.md"])
       = Some (File (readme (project_name (slugify b)) (today_iso w) b))
    /\ (forall q,
          ~ In q [[]; ["models"]; ["packages.yml"]; ["dbt_project.yml"];
                  ["profiles.example.yml"]; ["README.md"]] ->
          files w' ((out_root ++ ["dbt_" +:+ slugify b]) ++ q) = None)
    /\ (forall q e, files w q = Some e -> files w' q = Some e)
    /\ stdin w' = stdin w
    /\ stdout w'
       = stdout w
         ++ ["wrote: " +:+ path_str ((out_root ++ ["dbt_" +:+ slugify b]) ++ ["packages.yml"]);
             "wrote: " +:+ path_str ((out_root ++ ["dbt_" +:+ slugify b]) ++ ["dbt_project.yml"]);
             "wrote: " +:+ path_str ((out_root ++ ["dbt_" +:+ slugify b]) ++ ["profiles.example.yml"]);
             "wrote: " +:+ path_str ((out_root ++ ["dbt_" +:+ slugify b]) ++ ["README.md"]);
             "Project for '" +:+ b +:+ "' generated at: "
               +:+ path_str (out_root ++ ["dbt_" +:+ slugify b])].
Proof.
  intros Ht Hb _ _ Hroot Hfree.
  set (name := "dbt_" +:+ slugify b) in *.
  set (pd := out_root ++ [name]) in *.
  assert (Hpd : files w pd = None) by (rewrite <- (app_nil_r pd); apply Hfree).
  assert (Hnf : no_file_chain (files w) [] pd = true).
  { apply no_file_chain_snoc; [exact Hroot | exact Hpd]. }
  destruct (mkdir_walk_ok _ _ _ Hnf) as (fs1 & Hmk & Hd1).
  assert (Hsame : forall q, q <> [] -> fs1 (pd ++ q) = None).
  { intros q Hq. rewrite (mkdir_walk_long _ _ _ _ Hmk); [apply Hfree |].
    rewrite length_app. destruct q; [congruence | simpl; lia]. }
  assert (Hkeep : forall q e, files w q = Some e -> fs1 q = Some e).
  { intros q e. eapply mkdir_walk_preserves; eauto. }
  assert (Hchild : forall a x, pd ++ [a] <> pd ++ [x] -> a <> x) by congruence.
  exists (vars_of r). eexists. split; [now apply build_snowplow_vars_typed |].
  split; [| split].
  - unfold generate_project_for_customer. rewrite (brand_of_record r b Hb).
    fold name. fold pd.
    erewrite bind_ok;
      [| apply handle_project_dir_absent; unfold pd; rewrite fs_at_child; exact Hpd].
    erewrite bind_ok; [| apply fs_call_ok; exact Hmk].
    erewrite bind_ok; [| reflexivity].
    erewrite bind_ok; [| apply dump_yaml_child; cbn [files set_files];
                         [exact Hd1 | now rewrite Hsame]].
    erewrite bind_ok;
      [| unfold lift; rewrite (build_snowplow_vars_typed r Ht); reflexivity].
    erewrite bind_ok; [| apply dump_yaml_child; in_project].
    erewrite bind_ok; [| apply write_file_child; in_project].
    erewrite bind_ok; [| apply write_file_child; in_project].
    erewrite bind_ok; [| apply fs_call_ok, mkdir_exist_ok_child; in_project].
    erewrite bind_ok; [| reflexivity].
    reflexivity.
  - cbn [files set_files put_stdout].
    rewrite !fs_set_ne by (intros E; apply (f_equal length) in E;
                           rewrite length_app in E; simpl in E; lia).
    pose proof (dir_chain_nonempty _ _ Hd1) as Hdir. unfold pd in Hdir.
    now rewrite fs_at_child in Hdir.
  - cbn [files set_files put_stdout stdin stdout today_iso].
    repeat split.
    + apply fs_set_eq.
    + rewrite !fs_set_ne by (apply sibling_file_differs; discriminate). apply fs_set_eq.
    + rewrite !fs_set_ne by (apply sibling_file_differs; discriminate). apply fs_set_eq.
    + rewrite !fs_set_ne by (apply sibling_file_differs; discriminate). apply fs_set_eq.
    + rewrite !fs_set_ne by (apply sibling_file_differs; discriminate). apply fs_set_eq.
    + intros q Hq. simpl in Hq.
      rewrite !fs_set_ne by (intros E; apply app_inv_head in E; subst q; tauto).
      apply Hsame. intros ->. tauto.
    + intros q e Hq. rewrite !fs_set_ne.
      * now apply Hkeep.
      * intros ->. now rewrite Hfree in Hq.
      * intros ->. now rewrite Hfree in Hq.
      * intros ->. now rewrite Hfree in Hq.
      * intros ->. now rewrite Hfree in Hq.
      * intros ->. now rewrite Hfree in Hq.
    + now rewrite <- !app_assoc.
Qed.

Lemma generation_in_fresh_location_witness :
  exists w' : world,
    generate_project_for_customer sample_dump record_acme ["out"]
      DEFAULT_PACKAGE_GIT DEFAULT_PACKAGE_REF fresh_world
    = (inr ["out"; "dbt_acme-co"], w')
    /\ files w' ["out"; "dbt_acme-co"; "README.md"]
       = Some (File (readme "snowplow_unified_for_acme-co" "2024-01-01" "Acme Co."))
    /\ files w' ["out"; "dbt_acme-co"; "models"] = Some Dir
    /\ stdin w' = [].
Proof.
  assert (H1 : tracking_typed record_acme = true) by reflexivity.
  assert (H2 : record_acme !! k_brand_name = None /\ "Acme Co." = "unnamed_brand"
               \/ record_acme !! k_brand_name = Some (JStr "Acme Co."))
    by (right; reflexivity).
  assert (H3 : no_file_chain (files fresh_world) [] ["out"] = true) by reflexivity.
  assert (H4 : forall q, files fresh_world
                 ((["out"] ++ ["dbt_" +:+ slugify "Acme Co."]) ++ q) = None)
    by reflexivity.
  assert (H5 : forallb name_fits (["out"] ++ ["dbt_" +:+ slugify "Acme Co."]) = true)
    by reflexivity.
  assert (H6 : path_fits ((["out"] ++ ["dbt_" +:+ slugify "Acme Co."])
                          ++ ["profiles.example.yml"]) = true) by reflexivity.
  destruct (generation_in_fresh_location sample_dump record_acme "Acme Co." ["out"]
              DEFAULT_PACKAGE_GIT DEFAULT_PACKAGE_REF fresh_world H1 H2 H5 H6 H3 H4)
    as (vars & w' & _ & Hrun & _ & Hmodels & _ & _ & _ & Hreadme & _ & _ & Hin & _).
  exists w'. split; [exact Hrun |]. split; [exact Hreadme |].
  split; [exact Hmodels | exact Hin].
Defined.

(** ** [generate_project_for_customer] when it fails *)



(** X16: With the project directory present and nobody to answer the prompt
    (the input is at its end), the generation stops with [EOFError] after
    writing the prompt: no file is touched. *)
Theorem generation_unattended_collision
    (yaml_dump : YAML -> ynode -> string) (r : gmap string json) (b : string)
    (out_root : list string) (git ref : string) (w : world) (e : entry) :
  r !! k_brand_name = None /\ b = "unnamed_brand" \/ r !! k_brand_name = Some (JStr b) ->
  files w (out_root ++ ["dbt_" +:+ slugify b]) = Some e ->
  stdin w = [] ->
  exists w' : world,
    generate_project_for_customer yaml_dump r out_root git ref w = (inl EOFError, w')
    /\ (forall q, files w' q = files w q)
    /\ stdout w' = stdout w ++ [override_prompt (out_root ++ ["dbt_" +:+ slugify b])].
Proof.
  intros Hb He Hin. eexists. split.
  - unfold generate_project_for_customer. rewrite (brand_of_record r b Hb).
    erewrite bind_err; [reflexivity |].
    unfold handle_project_dir, path_exists.
    erewrite bind_ok; [| rewrite fs_at_child, He; reflexivity].
    cbv iota. erewrite bind_ok; [| reflexivity].
    erewrite bind_err; [reflexivity |].
    unfold input. cbn [stdin put_stdout]. rewrite Hin. reflexivity.
  - split; reflexivity.
Qed.

Lemma generation_unattended_collision_witness :
  exists w' : world,
    generate_project_for_customer sample_dump {[ k_brand_name := JStr "Acme" ]} []
      DEFAULT_PACKAGE_GIT DEFAULT_PACKAGE_REF unattended_world = (inl EOFError, w')
    /\ files w' ["dbt_acme"; "dbt_project.yml"] = Some (File "name: old").
Proof.
  assert (H1 : ({[ k_brand_name := JStr "Acme" ]} : gmap string json) !! k_brand_name = None
               /\ "Acme" = "unnamed_brand"
               \/ ({[ k_brand_name := JStr "Acme" ]} : gmap string json) !! k_brand_name
                  = Some (JStr "Acme")) by (right; reflexivity).
  assert (H2 : files unattended_world ([] ++ ["dbt_" +:+ slugify "Acme"]) = Some Dir)
    by reflexivity.
  assert (H3 : stdin unattended_world = []) by reflexivity.
  destruct (generation_unattended_collision sample_dump _ "Acme" []
              DEFAULT_PACKAGE_GIT DEFAULT_PACKAGE_REF unattended_world Dir H1 H2 H3)
    as (w' & Hrun & Hf & _).
  exists w'. split; [exact Hrun |]. now rewrite Hf.
Defined.

(** ** What no step after [handle_project_dir] touches *)

Lemma keeps_bind {A B : Type} (dir : list string) (m : IO A) (k : A -> IO B) :
  keeps_outside dir m -> (forall a, keeps_outside dir (k a)) ->
  keeps_outside dir (bind m k).
Proof.
  intros Hm Hk w q e Hq Hf. unfold bind.
  specialize (Hm w q e Hq Hf).
  destruct (m w) as [[x | a] w1]; [exact Hm |]. now apply Hk.
Qed.

Lemma keeps_pure {A : Type} (dir : list string) (m : IO A) :
  (forall w, files (snd (m w)) = files w) -> keeps_outside dir m.
Proof. intros H w q e _ Hf. now rewrite H. Qed.

Lemma keeps_mkdir_parents (dir p : list string) :
  keeps_outside dir (fs_call (mkdir_parents p)).
Proof.
  intros w q e _ Hf. unfold fs_call.
  destruct (mkdir_parents p (files w)) as [x | fs'] eqn:E; [exact Hf |].
  cbn [snd files set_files]. eapply mkdir_walk_preserves; eauto.
Qed.

Lemma keeps_mkdir_exist_ok (dir p : list string) :
  keeps_outside dir (fs_call (mkdir_exist_ok p)).
Proof.
  intros w q e _ Hf. unfold fs_call, mkdir_exist_ok.
  destruct (fs_at (files w) p) as [[] |] eqn:Ep; try exact Hf.
  destruct (fs_at (files w) (path_parent p)) as [[] |]; try exact Hf.
  cbn [snd files set_files]. rewrite fs_set_ne; [exact Hf |].
  intros ->. destruct p; [discriminate | simpl in Ep; congruence].
Qed.

Lemma under_self_app (dir q : list string) : under dir (dir ++ q) = true.
Proof. unfold under. now rewrite strip_prefix_app. Qed.

Lemma keeps_write_text (dir : list string) (a : string) (content : string) :
  keeps_outside dir (fs_call (write_text (dir ++ [a]) content)).
Proof.
  intros w q e Hq Hf. unfold fs_call, write_text.
  destruct (fs_at (files w) (path_parent (dir ++ [a]))) as [[] |]; try exact Hf.
  assert (Hne : q <> dir ++ [a]).
  { intros ->. now rewrite under_self_app in Hq. }
  destruct (fs_at (files w) (dir ++ [a])) as [[] |]; try exact Hf;
    cbn [snd files set_files]; now rewrite fs_set_ne.
Qed.

Lemma keeps_dump_yaml (yaml_dump : YAML -> ynode -> string) (obj : ynode)
    (dir : list string) (a : string) :
  keeps_outside dir (dump_yaml yaml_dump obj (dir ++ [a])).
Proof.
  unfold dump_yaml. apply keeps_bind; [apply keeps_write_text |].
  intros _. now apply keeps_pure.
Qed.

Lemma keeps_write_file (dir : list string) (a : string) (content : string) :
  keeps_outside dir (write_file (dir ++ [a]) content).
Proof.
  unfold write_file. apply keeps_bind; [apply keeps_mkdir_parents |]. intros _.
  apply keeps_bind; [apply keeps_write_text |]. intros _. now apply keeps_pure.
Qed.

Ltac keeps_steps :=
  repeat first
    [ apply keeps_mkdir_parents
    | apply keeps_mkdir_exist_ok
    | apply keeps_dump_yaml
    | apply keeps_write_file
    | apply keeps_pure; reflexivity
    | apply keeps_bind; [| intros ?] ].

(** Everything [generate_project_for_customer] does after
    [handle_project_dir] stays inside the project directory. *)
Lemma generation_body_keeps_outside
    (yaml_dump : YAML -> ynode -> string) (r : gmap string json) (b : string)
    (dir : list string) (git ref : string) :
  keeps_outside dir
    (fs_call (mkdir_parents dir) ;;
     now <- date_today ;;
     dump_yaml yaml_dump (packages_obj git ref) (dir ++ ["packages.yml"]) ;;
     snowplow_vars <- lift (build_snowplow_vars r) ;;
     dump_yaml yaml_dump (YMap (dbt_project_obj (project_name (slugify b)) snowplow_vars))
               (dir ++ ["dbt_project.yml"]) ;;
     write_file (dir ++ ["profiles.example.yml"]) profiles_example ;;
     write_file (dir ++ ["README.md"]) (readme (project_name (slugify b)) now b) ;;
     fs_call (mkdir_exist_ok (dir ++ ["models"])) ;;
     print ("Project for '" +:+ b +:+ "' generated at: " +:+ path_str dir) ;;
     ret dir).
Proof. keeps_steps. Qed.

(** X17: Whatever the record, the answer at the prompt and the outcome, a
    generation leaves every existing entry outside the project directory
    and its timestamped sibling as it was: no other project, and nothing
    else under the output root, is removed or overwritten. *)
Theorem generation_touches_nothing_else
    (yaml_dump : YAML -> ynode -> string) (r : gmap string json) (b : string)
    (out_root : list string) (git ref : string) (w : world)
    (q : list string) (e : entry) :
  brand r = JStr b ->
  under (out_root ++ ["dbt_" +:+ slugify b]) q = false ->
  under (renamed_dir (out_root ++ ["dbt_" +:+ slugify b]) (now_stamp w)) q = false ->
  files w q = Some e ->
  files (snd (generate_project_for_customer yaml_dump r out_root git ref w)) q = Some e.
Proof.
  intros Hb Hq Hn Hf. unfold generate_project_for_customer. rewrite Hb.
  set (pd := out_root ++ ["dbt_" +:+ slugify b]) in *.
  pose proof (handle_project_dir_frame pd q w Hq Hn) as Hh.
  unfold bind at 1. destruct (handle_project_dir pd w) as [[x | u] w1].
  - simpl in *. congruence.
  - simpl in Hh. apply (generation_body_keeps_outside yaml_dump r b pd git ref w1 q e Hq).
    congruence.
Qed.

Lemma generation_touches_nothing_else_witness :
  files (snd (generate_project_for_customer sample_dump record_acme_short []
                DEFAULT_PACKAGE_GIT DEFAULT_PACKAGE_REF two_projects_world))
        ["dbt_other"]
  = Some Dir.
Proof.
  apply (generation_touches_nothing_else sample_dump record_acme_short "Acme");
    reflexivity.
Defined.

(** ** The archive through a whole generation *)




(** * The script with [dbt init] *)

(** ** [create_basic_files] *)

(** X20: Here the variables are built before anything is written: a tracking
    field that is not a string stops [create_basic_files] with
    [AttributeError] and no document at all, where the other script has
    already written [packages.yml]. *)
Theorem create_basic_files_untyped
    (yaml_dump : YAML -> ynode -> string) (py_repr : json -> string)
    (project_dir : list string) (name : string) (r : gmap string json)
    (git ref : string) (w : world) :
  tracking_typed r = false ->
  DbtInit.create_basic_files yaml_dump py_repr project_dir name r git ref w
  = (inl AttributeError, w).
Proof.
  intros Ht. unfold DbtInit.create_basic_files.
  erewrite bind_ok; [| reflexivity].
  erewrite bind_err; [reflexivity |].
  unfold lift. now rewrite (build_snowplow_vars_untyped r Ht).
Qed.

Lemma create_basic_files_untyped_witness :
  DbtInit.create_basic_files sample_dump (fun _ => "") ["dbt_init_acme-co"]
    "snowplow_unified_for_acme-co" record_bool_tracking
    DEFAULT_PACKAGE_GIT DEFAULT_PACKAGE_REF fresh_world
  = (inl AttributeError, fresh_world).
Proof. apply create_basic_files_untyped. reflexivity. Defined.

(** X21: Whatever its outcome, [create_basic_files] leaves every existing entry
    outside the directory it is given as it was. *)
Theorem create_basic_files_stays_inside
    (yaml_dump : YAML -> ynode -> string) (py_repr : json -> string)
    (project_dir : list string) (name : string) (r : gmap string json)
    (git ref : string) (w : world) (q : list string) (e : entry) :
  under project_dir q = false ->
  files w q = Some e ->
  files (snd (DbtInit.create_basic_files yaml_dump py_repr project_dir name r
                git ref w)) q
  = Some e.
Proof.
  revert w q e. change (keeps_outside project_dir
    (DbtInit.create_basic_files yaml_dump py_repr project_dir name r git ref)).
  unfold DbtInit.create_basic_files. keeps_steps.
Qed.

Lemma create_basic_files_stays_inside_witness :
  files (snd (DbtInit.create_basic_files sample_dump (fun _ => "") ["dbt_acme"]
                "snowplow_unified_for_acme" record_acme_short
                DEFAULT_PACKAGE_GIT DEFAULT_PACKAGE_REF two_projects_world))
        ["dbt_other"]
  = Some Dir.
Proof. apply create_basic_files_stays_inside; reflexivity. Defined.

(** X22: What a completed [create_basic_files] has written.  The README names
    the brand by the text of [customer_json.get('brand_name')]: the brand
    name itself when it is a string, and [None] when the record has none. *)
Theorem create_basic_files_documents
    (yaml_dump : YAML -> ynode -> string) (py_repr : json -> string)
    (dir : list string) (name : string) (r : gmap string json)
    (git ref : string) (w w' : world) :
  DbtInit.create_basic_files yaml_dump py_repr dir name r git ref w = (inr tt, w') ->
  exists vars : gmap string json,
    build_snowplow_vars r = inr vars
    /\ files w' (dir ++ ["packages.yml"])
       = Some (File (yaml_dump yaml (packages_obj git ref)))
    /\ files w' (dir ++ ["dbt_project.yml"])
       = Some (File (yaml_dump yaml (YMap (dbt_project_obj name vars))))
    /\ files w' (dir ++ ["profiles.example.yml"]) = Some (File DbtInit.profiles_example)
    /\ files w' (dir ++ ["README.md"])
       = Some (File (readme name (today_iso w)
                       (match r !! k_brand_name with
                        | None => "None"
                        | Some v => DbtInit.format_value py_repr v
                        end)))
    /\ files w' (dir ++ ["models"]) = Some Dir.
Proof.
  unfold DbtInit.create_basic_files.
  intros (now & w1 & Hnow & H)%bind_inr.
  apply bind_inr in H as (vars & w2 & Hv & H).
  apply bind_inr in H as (u3 & w3 & Hpk & H).
  apply bind_inr in H as (u4 & w4 & Hprj & H).
  apply bind_inr in H as (u5 & w5 & Hprof & H).
  apply bind_inr in H as (u6 & w6 & Hrd & Hmod).
  unfold date_today in Hnow. inversion Hnow; subst now w1; clear Hnow.
  unfold lift in Hv. inversion Hv; subst w2; clear Hv.
  apply dump_yaml_effect in Hpk as [Fpk [_ Ppk]].
  apply dump_yaml_effect in Hprj as [Fprj [_ Pprj]].
  apply write_file_effect in Hprof as [Fprof [_ Pprof]].
  apply write_file_effect in Hrd as [Frd [_ Prd]].
  pose proof (mkdir_exist_ok_preserved _ [] _ _ _ Hmod) as [_ Pmod].
  assert (Hne : forall a, dir ++ [a] <> []) by (intros a; destruct dir; discriminate).
  exists vars. repeat split; try assumption.
  - apply Pmod, Prd, Pprof, Pprj; try apply Hne; try exact Fpk;
      apply sibling_file_differs; discriminate.
  - apply Pmod, Prd, Pprof; try apply Hne; try exact Fprj;
      apply sibling_file_differs; discriminate.
  - apply Pmod, Prd; try apply Hne; try exact Fprof;
      apply sibling_file_differs; discriminate.
  - apply Pmod; [apply Hne |]. rewrite Frd. unfold dict_get_none, dict_get.
    now destruct (r !! k_brand_name).
  - apply fs_call_inr in Hmod as (fs' & Hop & ->). cbn [files set_files].
    unfold mkdir_exist_ok in Hop. rewrite fs_at_child in Hop.
    destruct (files w6 (dir ++ ["models"])) as [[] |] eqn:E; try discriminate.
    + now inversion Hop; subst.
    + destruct (fs_at (files w6) (path_parent (dir ++ ["models"]))) as [[] |];
        try discriminate.
      inversion Hop. apply fs_set_eq.
Qed.

Lemma create_basic_files_documents_witness :
  files (snd (DbtInit.create_basic_files sample_dump (fun _ => "")
                ["dbt_init_unnamed_brand"] "snowplow_unified_for_unnamed_brand" ∅
                DEFAULT_PACKAGE_GIT DEFAULT_PACKAGE_REF init_dir_world))
        ["dbt_init_unnamed_brand"; "README.md"]
  = Some (File (readme "snowplow_unified_for_unnamed_brand" "2024-01-01" "None")).
Proof.
  pose (run := DbtInit.create_basic_files sample_dump (fun _ => "")
                 ["dbt_init_unnamed_brand"] "snowplow_unified_for_unnamed_brand" ∅
                 DEFAULT_PACKAGE_GIT DEFAULT_PACKAGE_REF init_dir_world).
  assert (H : run = (inr tt, snd run)).
  { rewrite (surjective_pairing run) at 1. f_equal. }
  destruct (create_basic_files_documents _ _ _ _ _ _ _ _ _ H)
    as (vars & _ & _ & _ & _ & Hreadme & _).
  exact Hreadme.
Defined.

(** ** [generate_project_for_customer] with the initializer *)

Lemma init_handle_project_dir_stdin (project_dir : list string) (w : world) :
  exists k, stdin w = k ++ stdin (snd (DbtInit.handle_project_dir project_dir w)).
Proof.
  unfold DbtInit.handle_project_dir, bind, path_exists, strftime_now, input, ret,
    print, fs_call.
  destruct (fs_at (files w) project_dir); [| now exists []].
  cbn [stdin put_stdout].
  destruct (stdin w) as [| line rest] eqn:E; [exists []; simpl; now rewrite E |].
  exists [line].
  destruct (negb _); cbn [files set_stdin];
    match goal with
    | |- context [shutil_move ?a ?b ?f] => destruct (shutil_move a b f)
    | |- context [shutil_rmtree ?a ?f] => destruct (shutil_rmtree a f)
    end; reflexivity.
Qed.

Lemma fs_call_stdin (op : fsmap -> exn + fsmap) (w : world) :
  stdin (snd (fs_call op w)) = stdin w.
Proof. unfold fs_call. now destruct (op (files w)). Qed.

Lemma bind_ext_run {A B : Type} (m : IO A) (k1 k2 : A -> IO B) (w : world) :
  (forall a w1, m w = (inr a, w1) -> k1 a w1 = k2 a w1) ->
  bind m k1 w = bind m k2 w.
Proof.
  intros H. unfold bind. destruct (m w) as [[e | a] w1]; [reflexivity |].
  now apply H.
Qed.

(** X23: When no line of the input answers [y], the initializer is never run:
    the generation is the same whatever the initializer would do. *)
Theorem declining_skips_initializer
    (yaml_dump : YAML -> ynode -> string) (py_repr : json -> string)
    (init1 init2 : list string -> string -> IO (list string))
    (r : gmap string json) (out_root : list string) (git ref : string) (w : world) :
  Forall (fun l => str_lower (str_strip l) <> "y") (stdin w) ->
  DbtInit.generate_project_for_customer yaml_dump py_repr init1 r out_root git ref w
  = DbtInit.generate_project_for_customer yaml_dump py_repr init2 r out_root git ref w.
Proof.
  intros Hno. unfold DbtInit.generate_project_for_customer.
  destruct (brand r) as [| | | | b | |]; try reflexivity.
  set (pd := out_root ++ ["dbt_init_" +:+ slugify b]).
  apply bind_ext_run. intros u w1 Hh.
  apply bind_ext_run. intros u2 w2 Hm.
  apply bind_ext_run. intros line w3 Hin.
  assert (Hline : String.eqb (str_lower (str_strip line)) "y" = false).
  { apply String.eqb_neq.
    destruct (init_handle_project_dir_stdin pd w) as [k Hk].
    rewrite Hh in Hk. simpl in Hk.
    pose proof (fs_call_stdin (mkdir_parents pd) w1) as Hs.
    rewrite Hm in Hs. simpl in Hs.
    unfold input in Hin. cbn [stdin put_stdout] in Hin.
    destruct (stdin w2) as [| l rest]; [discriminate |].
    inversion Hin; subst l w3. rewrite Hk, <- Hs in Hno.
    apply Forall_app in Hno as [_ Hno]. now inversion Hno. }
  now rewrite Hline.
Qed.

Lemma declining_skips_initializer_witness :
  DbtInit.generate_project_for_customer sample_dump (fun _ => "") sample_init
    record_acme ["out"] DEFAULT_PACKAGE_GIT DEFAULT_PACKAGE_REF declining_world
  = DbtInit.generate_project_for_customer sample_dump (fun _ => "") failing_init
      record_acme ["out"] DEFAULT_PACKAGE_GIT DEFAULT_PACKAGE_REF declining_world.
Proof.
  apply declining_skips_initializer.
  constructor; [vm_compute; discriminate | constructor].
Defined.




(** ** The adapter [run_dbt_init] installs *)

Lemma nth_error_is_Some {A : Type} (l : list A) (n : nat) :
  is_Some (nth_error l n) <-> n < length l.
Proof.
  split.
  - intros [a Ha]. apply nth_error_Some. congruence.
  - intros H. destruct (nth_error l n) eqn:E; [eauto |].
    apply nth_error_None in E. lia.
Qed.

(** X25: The number entered selects an adapter exactly when it lies between -4
    and 5: 1 to 5 are the five adapters in the order of the menu, and 0 and
    the negative numbers down to -4 are accepted as well and count from the
    end of the list, so that 0 installs the last one; any other number is
    an [IndexError]. *)
Theorem chosen_adapter_range (choice : Z) :
  (is_Some (DbtInit.chosen_adapter choice) <-> (-4 <= choice <= 5)%Z)
  /\ ((1 <= choice <= 5)%Z ->
      DbtInit.chosen_adapter choice
      = nth_error DbtInit.adapters (Z.to_nat (choice - 1)))
  /\ ((-4 <= choice <= 0)%Z ->
      DbtInit.chosen_adapter choice = DbtInit.chosen_adapter (choice + 5)).
Proof.
  unfold DbtInit.chosen_adapter, DbtInit.list_item. cbn [length DbtInit.adapters].
  split; [| split].
  - destruct (Z.leb_spec 0 (choice - 1)).
    + rewrite nth_error_is_Some. simpl. lia.
    + destruct (Z.leb_spec (- Z.of_nat 5) (choice - 1)).
      * rewrite nth_error_is_Some. simpl. lia.
      * split; [intros [a Ha]; discriminate | lia].
  - intros Hc. destruct (Z.leb_spec 0 (choice - 1)); [reflexivity | lia].
  - intros Hc. destruct (Z.leb_spec 0 (choice - 1)); [lia |].
    destruct (Z.leb_spec (- Z.of_nat 5) (choice - 1)); [| lia].
    destruct (Z.leb_spec 0 (choice + 5 - 1)); [| lia].
    f_equal. lia.
Qed.

(** * [main]: a batch of inputs *)

Section MainProperties.

Variable to_path : string -> list string.
Variable glob_json : fsmap -> list string -> list (list string).
Variable json_loads : string -> option json.
Variable generate :
  gmap string json -> list string -> string -> string -> IO (list string).

(** The loop over a list put together from two is the loop over the first
    and, if that completes, the loop over the second. *)
Lemma process_inputs_app (l1 l2 : list (list string)) (out_root : list string)
    (git ref : string) (w : world) :
  process_inputs json_loads generate (l1 ++ l2) out_root git ref w
  = match process_inputs json_loads generate l1 out_root git ref w with
    | (inr _, w1, err1) =>
        let '(res, w2, err2) := process_inputs json_loads generate l2 out_root git ref w1 in
        (res, w2, err1 ++ err2)
    | failed => failed
    end.
Proof.
  revert w. induction l1 as [| ip l1 IH]; intros w; simpl.
  - now destruct (process_inputs _ _ l2 _ _ _ w) as [[res w2] err2].
  - destruct (load_json_file json_loads ip _) as [[f | v] err]; [reflexivity |].
    destruct v; try reflexivity.
    destruct (generate d out_root git ref _) as [[e | dir] w']; [reflexivity |].
    rewrite IH.
    destruct (process_inputs _ _ l1 _ _ _ w') as [[[f | []] w1] err1]; [reflexivity |].
    destruct (process_inputs _ _ l2 _ _ _ w1) as [[res w2] err2].
    now rewrite app_assoc.
Qed.

(** X26: The first input that fails ends the batch: whatever follows it in the
    list is not read and not generated, and the outcome, the world and the
    error output are those of the failure. *)
Theorem batch_stops_at_first_failure (l1 l2 : list (list string))
    (out_root : list string) (git ref : string) (w w' : world)
    (f : failure) (err : list string) :
  process_inputs json_loads generate l1 out_root git ref w = (inl f, w', err) ->
  process_inputs json_loads generate (l1 ++ l2) out_root git ref w = (inl f, w', err).
Proof. intros H. rewrite process_inputs_app. now rewrite H. Qed.

(** X27: An input file that does not exist, met after the inputs before it were
    generated, ends the run with exit status 1 and one line on [stderr];
    the inputs after it are left alone. *)
Theorem missing_input_stops_batch (l1 l2 : list (list string)) (ip : list string)
    (out_root : list string) (git ref : string) (w w1 : world) (err1 : list string) :
  process_inputs json_loads generate l1 out_root git ref w = (inr tt, w1, err1) ->
  fs_at (files w1) ip = None ->
  process_inputs json_loads generate (l1 ++ ip :: l2) out_root git ref w
  = (inl (SystemExit 1),
     put_stdout ("Processing " +:+ path_str ip +:+ "...") w1,
     err1 ++ ["ERROR: Input file '" +:+ path_str ip +:+ "' does not exist."]).
Proof.
  intros H Hip. rewrite process_inputs_app, H.
  simpl. unfold load_json_file. cbn [files put_stdout].
  now rewrite Hip.
Qed.

Lemma process_inputs_exit (l : list (list string)) (out_root : list string)
    (git ref : string) (w w' : world) (code : Z) (err : list string) :
  process_inputs json_loads generate l out_root git ref w = (inl (SystemExit code), w', err) ->
  code = 1%Z /\ exists ip, In ip l /\ fs_at (files w') ip = None.
Proof.
  revert w err. induction l as [| ip l IH]; intros w err; simpl.
  - discriminate.
  - unfold load_json_file at 1. cbn [files put_stdout].
    destruct (fs_at (files w) ip) as [[text |] |] eqn:E.
    + destruct (json_loads text) as [v |]; [| discriminate].
      destruct v; try discriminate.
      destruct (generate d out_root git ref _) as [[e | dir] w1]; [discriminate |].
      destruct (process_inputs _ _ l _ _ _ w1) as [[res w2] err2] eqn:Hrec.
      intros H. inversion H; subst.
      destruct (IH _ _ Hrec) as (Hc & ip' & Hin & Hnone). eauto.
    + discriminate.
    + intros H. inversion H; subst. split; [reflexivity |].
      exists ip. split; [now left | exact E].
Qed.

(** X28: The calls of [sys.exit] in [main] and [load_json_file], once the
    command line is parsed: a run without any input ends in [sys.exit(2)]
    and touches nothing, no other run reaches [sys.exit(2)], and
    [sys.exit(1)] is reached only for an input file that is not there.
    (The status with which [argparse] or an uncaught exception ends the
    process is not what this says.) *)
Theorem main_exit_status (a : args) (w : world) :
  (inputs_of to_path glob_json a w = [] ->
   main to_path glob_json json_loads generate a w
   = (inl (SystemExit 2), w, ["No input files provided."]))
  /\ forall (code : Z) (w' : world) (err : list string),
       main to_path glob_json json_loads generate a w
       = (inl (SystemExit code), w', err) ->
       (code = 2%Z /\ inputs_of to_path glob_json a w = [] /\ w' = w)
       \/ (code = 1%Z
           /\ exists ip, In ip (inputs_of to_path glob_json a w)
                         /\ fs_at (files w') ip = None).
Proof.
  unfold main. split.
  - now intros ->.
  - intros code w' err.
    destruct (inputs_of to_path glob_json a w) as [| ip l] eqn:E.
    + intros H. inversion H. left. auto.
    + intros H. right. eapply process_inputs_exit; exact H.
Qed.

End MainProperties.

Lemma chosen_adapter_range_witness :
  DbtInit.chosen_adapter 0 = Some "databricks"
  /\ DbtInit.chosen_adapter 1 = Some "snowflake".
Proof.
  destruct (chosen_adapter_range 0) as (_ & _ & H0).
  destruct (chosen_adapter_range 1) as (_ & H1 & _).
  split; [rewrite H0 by lia | rewrite H1 by lia]; reflexivity.
Defined.

Lemma batch_stops_at_first_failure_witness :
  process_inputs sample_loads (generate_project_for_customer sample_dump)
    ([["missing.json"]] ++ [["a.json"]]) ["out"] "git" "main" batch_world
  = (inl (SystemExit 1),
     put_stdout "Processing missing.json..." batch_world,
     ["ERROR: Input file 'missing.json' does not exist."]).
Proof. apply batch_stops_at_first_failure. reflexivity. Defined.

Lemma missing_input_stops_batch_witness :
  fst (process_inputs sample_loads (generate_project_for_customer sample_dump)
         ([["a.json"]] ++ ["missing.json"] :: [["a.json"]]) ["out"] "git" "main"
         batch_world)
  = (inl (SystemExit 1),
     put_stdout "Processing missing.json..."
       (snd (fst (process_inputs sample_loads
                    (generate_project_for_customer sample_dump)
                    [["a.json"]] ["out"] "git" "main" batch_world)))).
Proof.
  pose (res := process_inputs sample_loads (generate_project_for_customer sample_dump)
                 [["a.json"]] ["out"] "git" "main" batch_world).
  assert (H : res = (inr tt, snd (fst res), [])).
  { rewrite (surjective_pairing res) at 1.
    rewrite (surjective_pairing (fst res)) at 1. reflexivity. }
  assert (Hm : fs_at (files (snd (fst res))) ["missing.json"] = None) by reflexivity.
  rewrite (missing_input_stops_batch sample_loads
             (generate_project_for_customer sample_dump)
             [["a.json"]] [["a.json"]] ["missing.json"] ["out"] "git" "main"
             batch_world (snd (fst res)) [] H Hm).
  reflexivity.
Defined.

Lemma main_exit_status_witness :
  main sample_to_path sample_glob sample_loads
    (generate_project_for_customer sample_dump) no_args fresh_world
  = (inl (SystemExit 2), fresh_world, ["No input files provided."]).
Proof.
  apply (main_exit_status sample_to_path sample_glob sample_loads
           (generate_project_for_customer sample_dump) no_args fresh_world).
  reflexivity.
Defined.
